(** * fastyaml: the YAML event-stream materialiser of pyasdf

    A shallow embedding of [pyasdf/src/fastyaml.c].  The C functions are
    kept under their own names and written as state transformers over an
    explicit interpreter state: the libyaml event source, the single
    [event] slot, the Python heap, the anchor dictionary of the current
    document and CPython's error indicator.

    The collaborators the C file links against (libyaml, the CPython C
    API, [pyasdf.tagged.tag_object]) are not part of the file; each is
    given a model below, with the behaviour it is taken from. *)

From Stdlib Require Import ZArith String Ascii List Lia.
From Stdlib Require Import Floats.SpecFloat.
From stdpp Require Import gmap strings list.

Local Open Scope string_scope.
Local Open Scope Z_scope.

(** ** C strings

    A [char *] is modelled by the bytes from the pointer to the end of the
    buffer; the terminating NUL that libyaml writes after every value is
    what reading past the last byte yields. *)
Module CStr.

Definition NUL : ascii := Ascii.zero.

Definition code (c : ascii) : Z := Z.of_N (N_of_ascii c).

(** [p[0]] *)
Definition hd (p : string) : ascii :=
  match p with
  | EmptyString => NUL
  | String c _ => c
  end.

(** [p + 1] *)
Definition tl (p : string) : string :=
  match p with
  | EmptyString => EmptyString
  | String _ r => r
  end.

(** [p + n] *)
Fixpoint ptr_add (p : string) (n : nat) : string :=
  match n with
  | O => p
  | S n' => ptr_add (tl p) n'
  end.

(** [p[i]] *)
Definition at_ (p : string) (i : nat) : ascii := hd (ptr_add p i).

Definition ch_is (c : ascii) (lit : ascii) : bool := Ascii.eqb c lit.

(** [strncmp(s1, s2, n)]: the difference of the first pair of bytes that
    differ among the first [n], comparison stopping after a NUL. *)
Fixpoint strncmp (s1 s2 : string) (n : nat) : Z :=
  match n with
  | O => 0
  | S n' =>
      let c1 := hd s1 in
      let c2 := hd s2 in
      if negb (Ascii.eqb c1 c2) then code c1 - code c2
      else if Ascii.eqb c1 NUL then 0
      else strncmp (tl s1) (tl s2) n'
  end.

(** The C string at [p]: the bytes before the first NUL. *)
Fixpoint c_str (p : string) : string :=
  match p with
  | EmptyString => EmptyString
  | String c r => if Ascii.eqb c NUL then EmptyString else String c (c_str r)
  end.

(** [IS_DIGIT(c)] of fastyaml.c *)
Definition IS_DIGIT (c : ascii) : bool :=
  (code "0" <=? code c) && (code c <=? code "9").

End CStr.

(** ** CPython numeric parsing *)
Module CPython.
Import CStr.

(** [Py_ISSPACE]: space and the five controls 0x09..0x0d. *)
Definition Py_ISSPACE (c : ascii) : bool :=
  ((9 <=? code c) && (code c <=? 13)) || (code c =? 32).

(** [_PyLong_DigitValue]: the value of an alphanumeric as a digit. *)
Definition digit_value (c : ascii) : option Z :=
  let n := code c in
  if (48 <=? n) && (n <=? 57) then Some (n - 48)
  else if (97 <=? n) && (n <=? 122) then Some (n - 97 + 10)
  else if (65 <=? n) && (n <=? 90) then Some (n - 65 + 10)
  else None.

Fixpoint skip_space (p : string) : nat * string :=
  match p with
  | EmptyString => (O, p)
  | String c r =>
      if Py_ISSPACE c then let '(n, q) := skip_space r in (S n, q)
      else (O, p)
  end.

(** Reads the longest run of digits of [base]: their value on top of
    [acc], how many were read, and the rest. *)
Fixpoint read_digits (base : Z) (p : string) (acc : Z) : Z * nat * string :=
  match p with
  | EmptyString => (acc, O, p)
  | String c r =>
      match digit_value c with
      | Some d =>
          if d <? base then
            let '(z, n, q) := read_digits base r (acc * base + d) in (z, S n, q)
          else (acc, O, p)
      | None => (acc, O, p)
      end
  end.

Definition has_base_prefix (base : Z) (p : string) : bool :=
  ch_is (hd p) "0" &&
  (((base =? 16) && (ch_is (at_ p 1) "x" || ch_is (at_ p 1) "X")) ||
   ((base =? 8) && (ch_is (at_ p 1) "o" || ch_is (at_ p 1) "O")) ||
   ((base =? 2) && (ch_is (at_ p 1) "b" || ch_is (at_ p 1) "B"))).

(** [PyLong_FromString(str, &end, base)] for a fixed [base] in 2..36
    (what [PyInt_FromString] is under [IS_PY3K]): leading white space, an
    optional sign, an optional prefix of the base, at least one digit,
    trailing white space, and then the terminating NUL.  The result is
    the integer, or [None] for NULL (a ValueError is then pending), with
    the offset [end] is left at.  Digit separators are not part of the
    CPython the extension was written for and are not accepted. *)
Definition PyLong_FromString (str : string) (base : Z) : option Z * nat :=
  let '(n0, p1) := skip_space str in
  let '(sign, n1, p2) :=
    if ch_is (hd p1) "+" then (1, 1%nat, tl p1)
    else if ch_is (hd p1) "-" then (-1, 1%nat, tl p1)
    else (1, O, p1) in
  let '(n2, p3) :=
    if has_base_prefix base p2 then (2%nat, ptr_add p2 2) else (O, p2) in
  let '(z, nd, p4) := read_digits base p3 0 in
  let consumed := (n0 + n1 + n2 + nd)%nat in
  match nd with
  | O => (None, consumed)
  | S _ =>
      let '(n3, p5) := skip_space p4 in
      if ch_is (hd p5) NUL then (Some (sign * z), (consumed + n3)%nat)
      else (None, (consumed + n3)%nat)
  end.

(** *** Doubles

    A C [double] is a [spec_float] of binary64. *)
Definition prec : Z := 53.
Definition emax : Z := 1024.

Definition NAN : spec_float := S754_nan.
Definition INFINITY : spec_float := S754_infinity false.

(** The double nearest to [(-1)^neg * m * 10^e10] (ties to even). *)
Definition decimal_to_double (neg : bool) (m : Z) (e10 : Z) : spec_float :=
  match m with
  | Zpos pm =>
      if 0 <=? e10 then
        binary_normalize prec emax (if neg then - (m * 10 ^ e10) else m * 10 ^ e10) 0 neg
      else
        match 10 ^ (- e10) with
        | Zpos pd => SFdiv prec emax (S754_finite neg pm 0) (S754_finite false pd 0)
        | _ => S754_nan
        end
  | _ => S754_zero neg
  end.

(** The outcome of a [strtod]: the value, the offset the scan stopped at
    (0: nothing was recognised) and whether [errno] is [ERANGE] for an
    overflow. *)
Record strtod_result := {
  sd_value : spec_float;
  sd_end : nat;
  sd_overflow : bool
}.

(** [_Py_dg_strtod]: sign, digits, an optional point and digits (at least
    one digit in all), an optional exponent that is read only when a
    digit follows it.  No white space, no hexadecimal, no inf or nan. *)
Definition _Py_dg_strtod (p : string) : strtod_result :=
  let '(neg, n0, p1) :=
    if ch_is (hd p) "-" then (true, 1%nat, tl p)
    else if ch_is (hd p) "+" then (false, 1%nat, tl p)
    else (false, O, p) in
  let '(ip, ni, p2) := read_digits 10 p1 0 in
  let '(m, nf, npt, p3) :=
    if ch_is (hd p2) "." then
      let '(m, nf, q) := read_digits 10 (tl p2) ip in (m, nf, 1%nat, q)
    else (ip, O, O, p2) in
  match (ni + nf)%nat with
  | O => {| sd_value := S754_zero false; sd_end := O; sd_overflow := false |}
  | S _ =>
      let mant_end := (n0 + ni + npt + nf)%nat in
      let '(ex, ne) :=
        if ch_is (hd p3) "e" || ch_is (hd p3) "E" then
          let '(eneg, ns, p4) :=
            if ch_is (at_ p3 1) "-" then (true, 1%nat, ptr_add p3 2)
            else if ch_is (at_ p3 1) "+" then (false, 1%nat, ptr_add p3 2)
            else (false, O, tl p3) in
          let '(e, nx, _) := read_digits 10 p4 0 in
          match nx with
          | O => (0, O)
          | S _ => (if eneg then - e else e, (1 + ns + nx)%nat)
          end
        else (0, O) in
      let d := decimal_to_double neg m (ex - Z.of_nat nf) in
      {| sd_value := d;
         sd_end := (mant_end + ne)%nat;
         sd_overflow := match d with S754_infinity _ => true | _ => false end |}
  end.

Definition lower (c : ascii) : ascii :=
  if (65 <=? code c) && (code c <=? 90) then ascii_of_N (N_of_ascii c + 32) else c.

(** Case-insensitive match of the lower-case [lit] at [p]. *)
Fixpoint case_insensitive_match (p lit : string) : bool :=
  match lit with
  | EmptyString => true
  | String l lr => Ascii.eqb (lower (hd p)) l && case_insensitive_match (tl p) lr
  end.

(** [_Py_parse_inf_or_nan] *)
Definition _Py_parse_inf_or_nan (p : string) : strtod_result :=
  let '(neg, n0, p1) :=
    if ch_is (hd p) "-" then (true, 1%nat, tl p)
    else if ch_is (hd p) "+" then (false, 1%nat, tl p)
    else (false, O, p) in
  if case_insensitive_match p1 "inf" then
    {| sd_value := S754_infinity neg;
       sd_end := if case_insensitive_match (ptr_add p1 3) "inity"
                 then (n0 + 8)%nat else (n0 + 3)%nat;
       sd_overflow := false |}
  else if case_insensitive_match p1 "nan" then
    {| sd_value := S754_nan; sd_end := (n0 + 3)%nat; sd_overflow := false |}
  else {| sd_value := S754_zero false; sd_end := O; sd_overflow := false |}.

(** [_PyOS_ascii_strtod] *)
Definition _PyOS_ascii_strtod (p : string) : strtod_result :=
  let r := _Py_dg_strtod p in
  match sd_end r with
  | O => _Py_parse_inf_or_nan p
  | S _ => r
  end.

End CPython.

(** ** UTF-8 *)
Module Utf8.
Import CStr.

Definition cont (c : ascii) : bool := (128 <=? code c) && (code c <=? 191).
Definition within (lo hi : Z) (c : ascii) : bool := (lo <=? code c) && (code c <=? hi).
Definition low6 (c : ascii) : Z := code c - 128.

(** Strict decoding, as CPython does it: shortest forms only, no
    surrogates, nothing above U+10FFFF.  [None] when the bytes are not
    UTF-8. *)
Fixpoint decode (bytes : string) : option (list Z) :=
  match bytes with
  | EmptyString => Some nil
  | String b0 r0 =>
      if code b0 <? 128 then option_map (cons (code b0)) (decode r0)
      else
        match r0 with
        | EmptyString => None
        | String b1 r1 =>
            if within 194 223 b0 then
              if cont b1
              then option_map (cons ((code b0 - 192) * 64 + low6 b1)) (decode r1)
              else None
            else
              match r1 with
              | EmptyString => None
              | String b2 r2 =>
                  if within 224 239 b0 then
                    if cont b2 &&
                       (if code b0 =? 224 then within 160 191 b1
                        else if code b0 =? 237 then within 128 159 b1
                        else cont b1)
                    then option_map
                           (cons ((code b0 - 224) * 4096 + low6 b1 * 64 + low6 b2))
                           (decode r2)
                    else None
                  else
                    match r2 with
                    | EmptyString => None
                    | String b3 r3 =>
                        if within 240 244 b0 && cont b2 && cont b3 &&
                           (if code b0 =? 240 then within 144 191 b1
                            else if code b0 =? 244 then within 128 143 b1
                            else cont b1)
                        then option_map
                               (cons ((code b0 - 240) * 262144 + low6 b1 * 4096
                                      + low6 b2 * 64 + low6 b3))
                               (decode r3)
                        else None
                    end
              end
        end
  end.

(** The code points of a text of ASCII characters. *)
Fixpoint of_ascii (text : string) : list Z :=
  match text with
  | EmptyString => nil
  | String c r => code c :: of_ascii r
  end.

End Utf8.

(** ** libyaml events *)

Inductive yaml_scalar_style_t :=
| YAML_ANY_SCALAR_STYLE
| YAML_PLAIN_SCALAR_STYLE
| YAML_SINGLE_QUOTED_SCALAR_STYLE
| YAML_DOUBLE_QUOTED_SCALAR_STYLE
| YAML_LITERAL_SCALAR_STYLE
| YAML_FOLDED_SCALAR_STYLE.

(** [yaml_event_type_t] *)
Inductive yaml_event_type_t :=
| YAML_NO_EVENT
| YAML_STREAM_START_EVENT
| YAML_STREAM_END_EVENT
| YAML_DOCUMENT_START_EVENT
| YAML_DOCUMENT_END_EVENT
| YAML_ALIAS_EVENT
| YAML_SCALAR_EVENT
| YAML_SEQUENCE_START_EVENT
| YAML_SEQUENCE_END_EVENT
| YAML_MAPPING_START_EVENT
| YAML_MAPPING_END_EVENT.

(** [yaml_event_t]: the type and the fields of [data] the C code reads.
    [anchor] and [tag] are [None] for a NULL pointer; [value] holds the
    [length] bytes of a scalar. *)
Record yaml_event_t := {
  type : yaml_event_type_t;
  anchor : option string;
  tag : option string;
  value : string;
  style : yaml_scalar_style_t
}.

Definition plain_event (t : yaml_event_type_t) : yaml_event_t :=
  {| type := t; anchor := None; tag := None; value := ""; style := YAML_ANY_SCALAR_STYLE |}.

Definition alias_event (name : string) : yaml_event_t :=
  {| type := YAML_ALIAS_EVENT; anchor := Some name; tag := None; value := "";
     style := YAML_ANY_SCALAR_STYLE |}.

Definition scalar_event (a t : option string) (v : string) (st : yaml_scalar_style_t)
  : yaml_event_t :=
  {| type := YAML_SCALAR_EVENT; anchor := a; tag := t; value := v; style := st |}.

Definition sequence_start_event (a t : option string) : yaml_event_t :=
  {| type := YAML_SEQUENCE_START_EVENT; anchor := a; tag := t; value := "";
     style := YAML_ANY_SCALAR_STYLE |}.

Definition mapping_start_event (a t : option string) : yaml_event_t :=
  {| type := YAML_MAPPING_START_EVENT; anchor := a; tag := t; value := "";
     style := YAML_ANY_SCALAR_STYLE |}.

#[global] Instance yaml_event_type_eq_dec : EqDecision yaml_event_type_t.
Proof. solve_decision. Defined.

#[global] Instance yaml_scalar_style_eq_dec : EqDecision yaml_scalar_style_t.
Proof. solve_decision. Defined.

(** What one call of [yaml_parser_parse] finds: the next event, or a
    scanner or parser error. *)
Inductive scan :=
| Produce (e : yaml_event_t)
| ScanError.

(** ** Python objects *)

(** A non-NULL [PyObject *]: one of the three immortal singletons the C
    code returns, or the address of an object on the heap.  A nullable
    pointer is an [option PyObject]. *)
Inductive PyObject :=
| Py_None
| Py_True
| Py_False
| Py_Ref (a : nat).

#[global] Instance PyObject_eq_dec : EqDecision PyObject.
Proof. solve_decision. Defined.

(** The value behind a pointer. *)
Inductive pyval :=
| VNone
| VBool (b : bool)
| VInt (z : Z)
| VFloat (d : spec_float)
| VUnicode (cps : list Z)
| VList (items : list PyObject)
| VDict (entries : list (PyObject * PyObject))
| VOrderedDict (entries : list (PyObject * PyObject))
| VTagged (tag : string) (instance : PyObject).

Inductive exc_type :=
| PyExc_ValueError
| PyExc_TypeError
| PyExc_OverflowError
| PyExc_UnicodeDecodeError
| PyExc_SystemError
| PyExc_AttributeError
| PyExc_Exception.

Record pyerr := { exc : exc_type; msg : string }.

(** The calls the anchor table and the collaborators receive, oldest first. *)
Inductive op :=
| OpNew (o : PyObject)
| OpTag (tag : string) (instance : PyObject) (tagged : option PyObject)
| OpMemo (name : string) (obj : PyObject)
| OpAlias (name : string) (found : option PyObject).

Record state := {
  st_input : list scan;
  st_event : yaml_event_t;
  st_heap : list pyval;
  st_anchors : gmap string PyObject;
  st_err : option pyerr;
  st_trace : list op
}.

Definition set_input (i : list scan) (e : yaml_event_t) (s : state) : state :=
  {| st_input := i; st_event := e; st_heap := st_heap s;
     st_anchors := st_anchors s; st_err := st_err s; st_trace := st_trace s |}.

Definition set_heap (h : list pyval) (s : state) : state :=
  {| st_input := st_input s; st_event := st_event s; st_heap := h;
     st_anchors := st_anchors s; st_err := st_err s; st_trace := st_trace s |}.

Definition set_anchors (a : gmap string PyObject) (s : state) : state :=
  {| st_input := st_input s; st_event := st_event s; st_heap := st_heap s;
     st_anchors := a; st_err := st_err s; st_trace := st_trace s |}.

Definition set_err (e : option pyerr) (s : state) : state :=
  {| st_input := st_input s; st_event := st_event s; st_heap := st_heap s;
     st_anchors := st_anchors s; st_err := e; st_trace := st_trace s |}.

Definition log (o : op) (s : state) : state :=
  {| st_input := st_input s; st_event := st_event s; st_heap := st_heap s;
     st_anchors := st_anchors s; st_err := st_err s; st_trace := st_trace s ++ [o] |}.

(** How a C function ends: it returns [a] in state [s]; it dereferences a
    NULL pointer; or the model's recursion bound was too small. *)
Inductive outcome (A : Type) :=
| Ret (a : A) (s : state)
| Segfault (s : state)
| OutOfFuel.
Arguments Ret {A} a s.
Arguments Segfault {A} s.
Arguments OutOfFuel {A}.

Definition M (A : Type) : Type := state -> outcome A.

Definition ret {A} (a : A) : M A := fun s => Ret a s.

Definition bind {A B} (m : M A) (k : A -> M B) : M B :=
  fun s =>
    match m s with
    | Ret a s' => k a s'
    | Segfault s' => Segfault s'
    | OutOfFuel => OutOfFuel
    end.

Notation "'let!' x ':=' m 'in' k" := (bind m (fun x => k))
  (at level 10, x name, m at level 100, k at level 200).

Definition get {A} (f : state -> A) : M A := fun s => Ret (f s) s.
Definition modify (f : state -> state) : M unit := fun s => Ret tt (f s).

(** Modelled from the spec: what the tag collaborator
    ([pyasdf.tagged.tag_object], which is not part of fastyaml.c) does
    with the instance it is given: it hands it back, wraps it in a new
    value, or fails. *)
Inductive tag_outcome :=
| TagSame
| TagWrap
| TagRaise (e : pyerr).

(** ** CPython objects and the error indicator *)
Module Py.
Import CStr.

Definition deref (h : list pyval) (p : PyObject) : option pyval :=
  match p with
  | Py_None => Some VNone
  | Py_True => Some (VBool true)
  | Py_False => Some (VBool false)
  | Py_Ref a => h !! a
  end.

(** Objects are never freed: reference counts are not tracked, only the
    pointer a count is taken through. *)
Definition alloc (v : pyval) : M (option PyObject) :=
  fun s => Ret (Some (Py_Ref (length (st_heap s)))) (set_heap (st_heap s ++ [v]) s).

Definition Py_DECREF (p : option PyObject) : M unit :=
  fun s => match p with
           | Some _ => Ret tt s
           | None => Segfault s
           end.

Definition PyErr_SetString (e : exc_type) (m : string) : M unit :=
  modify (set_err (Some {| exc := e; msg := m |})).

Definition PyErr_Clear : M unit := modify (set_err None).

Definition PyErr_Occurred : M bool :=
  get (fun s => match st_err s with Some _ => true | None => false end).

(** [null_error] of abstract.c *)
Definition null_error : M unit :=
  let! occurred := PyErr_Occurred in
  if occurred then ret tt
  else PyErr_SetString PyExc_SystemError "null argument to internal routine".

Definition PyUnicode_DecodeUTF8 (bytes : string) : M (option PyObject) :=
  match Utf8.decode bytes with
  | Some cps => alloc (VUnicode cps)
  | None =>
      let! _ := PyErr_SetString PyExc_UnicodeDecodeError "invalid utf-8" in
      ret None
  end.

Definition PyFloat_FromDouble (d : spec_float) : M (option PyObject) := alloc (VFloat d).

Definition PyInt_FromLong (z : Z) : M (option PyObject) := alloc (VInt z).

(** [PyInt_FromString(p, &end, base)] with [p = value + off]: the object and
    [end] as an offset into [value]. *)
Definition PyInt_FromString (p : string) (off : nat) (base : Z)
  : M (option PyObject * nat) :=
  match CPython.PyLong_FromString p base with
  | (Some z, e) =>
      let! o := alloc (VInt z) in
      ret (o, (off + e)%nat)
  | (None, e) =>
      let! _ := PyErr_SetString PyExc_ValueError "invalid literal for int()" in
      ret (None, (off + e)%nat)
  end.

Definition minus_one : spec_float := S754_finite true 4503599627370496 (-52).

(** [PyOS_string_to_double(s, &end, PyExc_OverflowError)] *)
Definition PyOS_string_to_double (s : string) : M (spec_float * nat) :=
  let r := CPython._PyOS_ascii_strtod s in
  match CPython.sd_end r with
  | O =>
      let! _ := PyErr_SetString PyExc_ValueError "could not convert string to float" in
      ret (minus_one, O)
  | S _ =>
      if CPython.sd_overflow r then
        let! _ := PyErr_SetString PyExc_OverflowError "value too large to convert to float" in
        ret (minus_one, CPython.sd_end r)
      else ret (CPython.sd_value r, CPython.sd_end r)
  end.

Definition PyList_New : M (option PyObject) :=
  let! o := alloc (VList []) in
  match o with
  | Some r => let! _ := modify (log (OpNew r)) in ret o
  | None => ret o
  end.

Definition PyDict_New : M (option PyObject) :=
  let! o := alloc (VDict []) in
  match o with
  | Some r => let! _ := modify (log (OpNew r)) in ret o
  | None => ret o
  end.

(** Calling [astropy.utils.compat.odict.OrderedDict] with no argument. *)
Definition ordered_dict : M (option PyObject) :=
  let! o := alloc (VOrderedDict []) in
  match o with
  | Some r => let! _ := modify (log (OpNew r)) in ret o
  | None => ret o
  end.

(** The anchor dictionary is keyed by the C string of the name; libyaml
    only lets alphanumerics, [_] and [-] into an anchor, so building the
    key never fails. *)
Definition PyDict_SetItemString (name : string) (obj : PyObject) : M Z :=
  let! _ := modify (fun s => set_anchors (<[c_str name := obj]> (st_anchors s)) s) in
  let! _ := modify (log (OpMemo (c_str name) obj)) in
  ret 0.

Definition PyDict_GetItemString (name : string) : M (option PyObject) :=
  let! found := get (fun s => st_anchors s !! c_str name) in
  let! _ := modify (log (OpAlias (c_str name) found)) in
  ret found.

(** Modelled from the spec: the wrapper the tag collaborator returns
    ([VTagged]) shares the container it wraps, so that the children added
    later go into the container that was tagged, not into a copy:
    [append] and item assignment through the wrapper act on the wrapped
    object, and as a dictionary key the wrapper stands for what it
    wraps. *)
Definition unwrap (h : list pyval) (p : PyObject) : option pyval :=
  match deref h p with
  | Some (VTagged _ i) => deref h i
  | v => v
  end.

Definition container_of (h : list pyval) (p : PyObject) : option (nat * pyval) :=
  match p with
  | Py_Ref a =>
      match h !! a with
      | Some (VTagged _ (Py_Ref b)) => option_map (pair b) (h !! b)
      | Some v => Some (a, v)
      | None => None
      end
  | _ => None
  end.

Definition hashable (h : list pyval) (key : PyObject) : bool :=
  match unwrap h key with
  | Some (VNone | VBool _ | VInt _ | VFloat _ | VUnicode _) => true
  | _ => false
  end.

Definition int_eq_double (z : Z) (d : spec_float) : bool :=
  match d with
  | S754_zero _ => z =? 0
  | S754_finite s m e =>
      let sm := if s then Z.neg m else Z.pos m in
      if 0 <=? e then z =? sm * 2 ^ e else z * 2 ^ (- e) =? sm
  | _ => false
  end.

(** [==] on the values that can be keys. *)
Definition py_eq (v1 v2 : pyval) : bool :=
  let num v :=
    match v with
    | VBool b => Some (inl (if b then 1 else 0))
    | VInt z => Some (inl z)
    | VFloat d => Some (inr d)
    | _ => None
    end in
  match v1, v2 with
  | VNone, VNone => true
  | VUnicode a, VUnicode b => bool_decide (a = b)
  | _, _ =>
      match num v1, num v2 with
      | Some (inl a), Some (inl b) => a =? b
      | Some (inl a), Some (inr d) => int_eq_double a d
      | Some (inr d), Some (inl a) => int_eq_double a d
      | Some (inr c), Some (inr d) => SFeqb c d
      | _, _ => false
      end
  end.

(** A dictionary finds a key by identity, then by [==]. *)
Definition key_eq (h : list pyval) (k1 k2 : PyObject) : bool :=
  bool_decide (k1 = k2) ||
  match unwrap h k1, unwrap h k2 with
  | Some v1, Some v2 => py_eq v1 v2
  | _, _ => false
  end.

(** [d[key] = val] on the entries of a dictionary, in insertion order. *)
Fixpoint dict_setitem (h : list pyval) (entries : list (PyObject * PyObject))
  (key val : PyObject) : list (PyObject * PyObject) :=
  match entries with
  | [] => [(key, val)]
  | (k, v) :: rest =>
      if key_eq h k key then (k, val) :: rest
      else (k, v) :: dict_setitem h rest key val
  end.

(** [PyObject_SetItem(o, key, value)] *)
Definition PyObject_SetItem (o : option PyObject) (key val : PyObject) : M Z :=
  match o with
  | None => let! _ := null_error in ret (-1)
  | Some r =>
      let! h := get st_heap in
      match container_of h r with
      | Some (a, VDict es) =>
          if hashable h key then
            let! _ := modify (set_heap (<[a := VDict (dict_setitem h es key val)]> h)) in
            ret 0
          else
            let! _ := PyErr_SetString PyExc_TypeError "unhashable type" in
            ret (-1)
      | Some (a, VOrderedDict es) =>
          if hashable h key then
            let! _ := modify (set_heap (<[a := VOrderedDict (dict_setitem h es key val)]> h)) in
            ret 0
          else
            let! _ := PyErr_SetString PyExc_TypeError "unhashable type" in
            ret (-1)
      | _ =>
          let! _ := PyErr_SetString PyExc_TypeError "object does not support item assignment" in
          ret (-1)
      end
  end.

(** [PyObject_CallMethod(o, "append", "O", item)] *)
Definition PyObject_CallMethod_append (o : option PyObject) (item : PyObject)
  : M (option PyObject) :=
  match o with
  | None => let! _ := null_error in ret None
  | Some r =>
      let! h := get st_heap in
      match container_of h r with
      | Some (a, VList items) =>
          let! _ := modify (set_heap (<[a := VList (items ++ [item])]> h)) in
          ret (Some Py_None)
      | _ =>
          let! _ := PyErr_SetString PyExc_AttributeError "append" in
          ret None
      end
  end.

End Py.

(** ** fastyaml.c *)

Import CStr Py.

(** [yaml_parser_parse(parser, event)]: 1 and the next event in [event];
    0 on a scanner or parser error.  Once the input is used up, and after
    an error, libyaml keeps answering 1 with an event of no type. *)
Definition yaml_parser_parse : M bool :=
  fun s =>
    match st_input s with
    | [] => Ret true (set_input [] (plain_event YAML_NO_EVENT) s)
    | Produce e :: rest => Ret true (set_input rest e s)
    | ScanError :: _ => Ret false (set_input [] (plain_event YAML_NO_EVENT) s)
    end.

Definition omap_tag : string := "tag:yaml.org,2002:omap".

Section Fastyaml.

(** Modelled from the spec: the external tag-resolution collaborator
    ([pyasdf.tagged.tag_object], bound to [tag_object_method] when the
    module is set up).  Given the tag and the instance it answers with the
    instance itself, with a new wrapper around it, or by raising. *)
Variable tag_object_method : string -> PyObject -> list pyval -> tag_outcome.

(** [PyObject_CallFunction(tag_object_method, "sO", tag, instance)] *)
Definition PyObject_CallFunction_tag (tag : string) (instance : PyObject)
  : M (option PyObject) :=
  let! h := get st_heap in
  let! tagged :=
    match tag_object_method (c_str tag) instance h with
    | TagSame => ret (Some instance)
    | TagWrap => alloc (VTagged (c_str tag) instance)
    | TagRaise e => let! _ := modify (set_err (Some e)) in ret None
    end in
  let! _ := modify (log (OpTag (c_str tag) instance tagged)) in
  ret tagged.

Definition memo_anchor (anchor_name : option string) (obj : option PyObject) : M Z :=
  match anchor_name, obj with
  | Some name, Some o =>
      if negb (ch_is (at_ name 0) NUL) then PyDict_SetItemString name o
      else ret 0
  | _, _ => ret 0
  end.

Definition tag_object (tag : option string) (instance : option PyObject)
  : M (option PyObject) :=
  match instance, tag with
  | Some i, Some t =>
      if negb (ch_is (at_ t 0) NUL) then
        let! tagged := PyObject_CallFunction_tag t i in
        let! _ := Py_DECREF instance in
        ret tagged
      else ret instance
  | _, _ => ret instance
  end.

Definition make_alias : M (option PyObject) :=
  let! event := get st_event in
  match anchor event with
  | None => fun s => Segfault s
  | Some name =>
      let! result := PyDict_GetItemString name in
      match result with
      | None => ret None
      | Some r => ret (Some r)
      end
  end.

(** The label [treat_as_string] of [_make_scalar]. *)
Definition treat_as_string : M (option PyObject) :=
  let! event := get st_event in
  PyUnicode_DecodeUTF8 (value event).

(** The float attempt of [_make_scalar] and what follows it. *)
Definition float_or_string : M (option PyObject) :=
  let! event := get st_event in
  let value := value event in
  let expected_end := String.length value in
  let! d := PyOS_string_to_double value in
  if bool_decide (snd d = expected_end) then PyFloat_FromDouble (fst d)
  else
    let! occurred := PyErr_Occurred in
    let! _ := if occurred then PyErr_Clear else ret tt in
    treat_as_string.

(** [_make_scalar] after its [switch], for [numstart = value + k]. *)
Definition after_switch (k : nat) : M (option PyObject) :=
  let! event := get st_event in
  let value := value event in
  let expected_end := String.length value in
  let c := at_ value k in
  if IS_DIGIT c || ch_is c "." then
    let! r := PyInt_FromString value 0 10 in
    match fst r with
    | None => let! _ := PyErr_Clear in float_or_string
    | Some result =>
        if negb (bool_decide (snd r = expected_end)) then
          let! _ := Py_DECREF (Some result) in
          float_or_string
        else ret (Some result)
    end
  else treat_as_string.

(** A [PyInt_FromString] of [value + k] in [base] that must reach the end
    of the value, as the hexadecimal and octal cases make it; [break]
    otherwise. *)
Definition whole_int (k : nat) (base : Z) : M (option PyObject) :=
  let! event := get st_event in
  let value := value event in
  let expected_end := String.length value in
  let! r := PyInt_FromString (ptr_add value k) k base in
  match fst r with
  | None => let! _ := PyErr_Clear in after_switch 0
  | Some result =>
      if negb (bool_decide (snd r = expected_end)) then
        let! _ := Py_DECREF (Some result) in
        after_switch 0
      else ret (Some result)
  end.

Definition _make_scalar : M (option PyObject) :=
  let! event := get st_event in
  let value := value event in
  let length := String.length value in
  if bool_decide (length = O)
     || bool_decide (style event = YAML_SINGLE_QUOTED_SCALAR_STYLE)
     || bool_decide (style event = YAML_DOUBLE_QUOTED_SCALAR_STYLE)
  then PyUnicode_DecodeUTF8 value
  else
    let c0 := at_ value 0 in
    if ch_is c0 "." then
      if strncmp (ptr_add value 1) "NaN" 4 =? 0 then PyFloat_FromDouble CPython.NAN
      else if strncmp (ptr_add value 1) "nan" 4 =? 0 then PyFloat_FromDouble CPython.NAN
      else if strncmp (ptr_add value 1) "Inf" 4 =? 0 then PyFloat_FromDouble CPython.INFINITY
      else if strncmp (ptr_add value 1) "inf" 4 =? 0 then PyFloat_FromDouble CPython.INFINITY
      else after_switch 0
    else if ch_is c0 "0" then
      if ch_is (at_ value 1) "x" then whole_int 2 16
      else if (code "0" <=? code (at_ value 1)) && (code (at_ value 1) <=? code "8")
      then whole_int 1 8
      else if bool_decide (length = 1%nat) then PyInt_FromLong 0
      else after_switch 0
    else if ch_is c0 "-" then
      if ch_is (at_ value 1) "." then
        if strncmp (ptr_add value 2) "Inf" 4 =? 0
        then PyFloat_FromDouble (SFopp CPython.INFINITY)
        else if strncmp (ptr_add value 2) "inf" 4 =? 0
        then PyFloat_FromDouble (SFopp CPython.INFINITY)
        else after_switch 1
      else after_switch 1
    else if ch_is c0 "+" then
      if ch_is (at_ value 1) "." then
        if strncmp (ptr_add value 2) "Inf" 4 =? 0 then PyFloat_FromDouble CPython.INFINITY
        else if strncmp (ptr_add value 2) "inf" 4 =? 0 then PyFloat_FromDouble CPython.INFINITY
        else after_switch 1
      else after_switch 1
    else if ch_is c0 "n" then
      if strncmp (ptr_add value 1) "ull" 4 =? 0 then ret (Some Py_None)
      else treat_as_string
    else if ch_is c0 "t" then
      if strncmp (ptr_add value 1) "rue" 4 =? 0 then ret (Some Py_True)
      else treat_as_string
    else if ch_is c0 "f" then
      if strncmp (ptr_add value 1) "alse" 5 =? 0 then ret (Some Py_False)
      else treat_as_string
    else after_switch 0.

Definition make_scalar : M (option PyObject) :=
  let! event := get st_event in
  let! scalar := _make_scalar in
  let! scalar := tag_object (tag event) scalar in
  let! rc := memo_anchor (anchor event) scalar in
  if negb (rc =? 0) then
    let! _ := Py_DECREF scalar in
    ret None
  else ret scalar.

(** The recursive descent.  [parse_node] is the call the three container
    functions make for a child; [n] bounds the iterations of a loop. *)
Section Containers.

Variable parse_node : M (option PyObject).

(** The [while (1)] of [parse_ordered_dict]. *)
Fixpoint parse_ordered_dict_loop (n : nat) (result : PyObject) : M (option PyObject) :=
  match n with
  | O => fun _ => OutOfFuel
  | S n' =>
      let! ok := yaml_parser_parse in
      if negb ok then
        let! _ := PyErr_SetString PyExc_ValueError "Parsing error 1" in
        let! _ := Py_DECREF (Some result) in
        ret None
      else
        let! event := get st_event in
        if bool_decide (type event = YAML_SEQUENCE_END_EVENT) then ret (Some result)
        else if negb (bool_decide (type event = YAML_MAPPING_START_EVENT)) then
          let! _ := PyErr_SetString PyExc_ValueError
                      "Expected mapping start or sequence end event" in
          let! _ := Py_DECREF (Some result) in
          ret None
        else
          let! key := parse_node in
          match key with
          | None => let! _ := Py_DECREF (Some result) in ret None
          | Some k =>
              let! val := parse_node in
              match val with
              | None =>
                  let! _ := Py_DECREF key in
                  let! _ := Py_DECREF (Some result) in
                  ret None
              | Some v =>
                  let! rc := PyObject_SetItem (Some result) k v in
                  if negb (rc =? 0) then
                    let! _ := Py_DECREF key in
                    let! _ := Py_DECREF val in
                    let! _ := Py_DECREF (Some result) in
                    ret None
                  else
                    let! _ := Py_DECREF key in
                    let! _ := Py_DECREF val in
                    let! ok := yaml_parser_parse in
                    if negb ok then
                      let! _ := PyErr_SetString PyExc_ValueError "Parsing error 2" in
                      let! _ := Py_DECREF (Some result) in
                      ret None
                    else
                      let! event := get st_event in
                      if negb (bool_decide (type event = YAML_MAPPING_END_EVENT)) then
                        let! _ := PyErr_SetString PyExc_ValueError
                                    "Expected mapping end event" in
                        let! _ := Py_DECREF (Some result) in
                        ret None
                      else parse_ordered_dict_loop n' result
              end
          end
  end.

Definition parse_ordered_dict (n : nat) : M (option PyObject) :=
  let! event := get st_event in
  let! result := ordered_dict in
  match result with
  | None => ret None
  | Some r =>
      let! rc := memo_anchor (anchor event) result in
      if negb (rc =? 0) then
        let! _ := Py_DECREF result in
        ret None
      else parse_ordered_dict_loop n r
  end.

(** The [while] of [parse_sequence] and the check behind it. *)
Fixpoint parse_sequence_loop (n : nat) (result : option PyObject) : M (option PyObject) :=
  match n with
  | O => fun _ => OutOfFuel
  | S n' =>
      let! subresult := parse_node in
      match subresult with
      | Some sub =>
          let! appended := PyObject_CallMethod_append result sub in
          match appended with
          | None =>
              let! _ := Py_DECREF subresult in
              let! _ := Py_DECREF result in
              ret None
          | Some _ =>
              let! _ := Py_DECREF subresult in
              parse_sequence_loop n' result
          end
      | None =>
          let! event := get st_event in
          if negb (bool_decide (type event = YAML_SEQUENCE_END_EVENT)) then
            let! _ := PyErr_SetString PyExc_ValueError "Expected sequence end event" in
            let! _ := Py_DECREF result in
            ret None
          else ret result
      end
  end.

Definition parse_sequence (n : nat) : M (option PyObject) :=
  let! event := get st_event in
  if match tag event with
     | Some t => strncmp t omap_tag 23 =? 0
     | None => false
     end
  then parse_ordered_dict n
  else
    let! result := PyList_New in
    match result with
    | None => ret None
    | Some _ =>
        let! result := tag_object (tag event) result in
        let! rc := memo_anchor (anchor event) result in
        if negb (rc =? 0) then
          let! _ := Py_DECREF result in
          ret None
        else parse_sequence_loop n result
    end.

(** The [while] of [parse_mapping] and the check behind it. *)
Fixpoint parse_mapping_loop (n : nat) (result : option PyObject) : M (option PyObject) :=
  match n with
  | O => fun _ => OutOfFuel
  | S n' =>
      let! key := parse_node in
      match key with
      | Some k =>
          let! val := parse_node in
          match val with
          | None =>
              let! _ := Py_DECREF key in
              let! _ := Py_DECREF result in
              ret None
          | Some v =>
              let! rc := PyObject_SetItem result k v in
              if negb (rc =? 0) then
                let! _ := Py_DECREF key in
                let! _ := Py_DECREF val in
                let! _ := Py_DECREF result in
                ret None
              else
                let! _ := Py_DECREF key in
                let! _ := Py_DECREF val in
                parse_mapping_loop n' result
          end
      | None =>
          let! event := get st_event in
          if negb (bool_decide (type event = YAML_MAPPING_END_EVENT)) then
            let! _ := PyErr_SetString PyExc_ValueError "Expected mapping end event" in
            let! _ := Py_DECREF result in
            ret None
          else ret result
      end
  end.

Definition parse_mapping (n : nat) : M (option PyObject) :=
  let! event := get st_event in
  let! result := PyDict_New in
  match result with
  | None => ret None
  | Some _ =>
      let! result := tag_object (tag event) result in
      let! rc := memo_anchor (anchor event) result in
      if negb (rc =? 0) then
        let! _ := Py_DECREF result in
        ret None
      else parse_mapping_loop n result
  end.

End Containers.

Fixpoint parse_node (fuel : nat) : M (option PyObject) :=
  match fuel with
  | O => fun _ => OutOfFuel
  | S n =>
      let! ok := yaml_parser_parse in
      if negb ok then
        let! _ := PyErr_SetString PyExc_ValueError "Parsing error 3" in
        ret None
      else
        let! event := get st_event in
        match type event with
        | YAML_ALIAS_EVENT => make_alias
        | YAML_SCALAR_EVENT => make_scalar
        | YAML_SEQUENCE_START_EVENT => parse_sequence (parse_node n) n
        | YAML_MAPPING_START_EVENT => parse_mapping (parse_node n) n
        | _ => ret None
        end
  end.

Definition parse_document (fuel : nat) : M (option PyObject) :=
  let! _ := modify (set_anchors ∅) in
  let! ok := yaml_parser_parse in
  if negb ok then
    let! _ := PyErr_SetString PyExc_ValueError "Parsing error 4" in
    ret None
  else
    let! event := get st_event in
    if bool_decide (type event = YAML_DOCUMENT_START_EVENT) then
      let! result := parse_node fuel in
      match result with
      | None => ret None
      | Some _ =>
          let! ok := yaml_parser_parse in
          if negb ok then
            let! _ := PyErr_SetString PyExc_ValueError "Parsing error 5" in
            let! _ := Py_DECREF result in
            ret None
          else
            let! event := get st_event in
            if bool_decide (type event = YAML_DOCUMENT_END_EVENT) then ret result
            else
              let! _ := PyErr_SetString PyExc_ValueError "Expected document end event" in
              let! _ := Py_DECREF result in
              ret None
      end
    else
      let! _ := PyErr_SetString PyExc_ValueError "Expected document start event" in
      ret None.

Definition parse_stream (fuel : nat) : M (option PyObject) :=
  let! ok := yaml_parser_parse in
  if negb ok then
    let! _ := PyErr_SetString PyExc_ValueError "Parsing error 6" in
    ret None
  else
    let! event := get st_event in
    if bool_decide (type event = YAML_STREAM_START_EVENT) then
      let! result := parse_document fuel in
      match result with
      | None => ret None
      | Some _ =>
          let! ok := yaml_parser_parse in
          if negb ok then
            let! _ := PyErr_SetString PyExc_ValueError "Parsing error 7" in
            let! _ := Py_DECREF result in
            ret None
          else
            let! event := get st_event in
            if bool_decide (type event = YAML_STREAM_END_EVENT) then ret result
            else
              let! _ := PyErr_SetString PyExc_ValueError "Expected stream end event" in
              let! _ := Py_DECREF result in
              ret None
      end
    else
      let! _ := PyErr_SetString PyExc_ValueError "Expected stream start event" in
      ret None.

(** [parse_yaml] once libyaml is set up on the byte source: what is left
    of it after [PyArg_ParseTuple], for a recursion bound [fuel]. *)
Definition parse_yaml_from (fuel : nat) : M (option PyObject) :=
  let! result := parse_stream fuel in
  match result with
  | None =>
      let! occurred := PyErr_Occurred in
      let! _ :=
        if negb occurred then PyErr_SetString PyExc_ValueError "Error parsing YAML"
        else ret tt in
      ret None
  | Some _ =>
      let! occurred := PyErr_Occurred in
      if occurred then
        let! _ := Py_DECREF result in
        ret None
      else ret result
  end.

Definition initial_state (input : list scan) : state :=
  {| st_input := input; st_event := plain_event YAML_NO_EVENT; st_heap := [];
     st_anchors := ∅; st_err := None; st_trace := [] |}.

(** [parse_yaml] on the events libyaml reads from the byte source.  A node
    takes at least one event, so the length of the input bounds the
    recursion ([parse_yaml_total]). *)
Definition parse_yaml (input : list scan) : outcome (option PyObject) :=
  parse_yaml_from (S (length input)) (initial_state input).

End Fastyaml.

(** ** Vocabulary of the properties *)

Definition quoted (st : yaml_scalar_style_t) : bool :=
  bool_decide (st = YAML_SINGLE_QUOTED_SCALAR_STYLE)
  || bool_decide (st = YAML_DOUBLE_QUOTED_SCALAR_STYLE).

(** [s] with a scalar event of the given text and style in the event slot. *)
Definition with_scalar (text : string) (st : yaml_scalar_style_t) (s : state) : state :=
  set_input (st_input s) (scalar_event None None text st) s.

(** The Scalar Resolver: the value [_make_scalar] builds for a text and a
    style when it is called in state [s]; [None] when it returns NULL. *)
Definition resolve (s : state) (text : string) (st : yaml_scalar_style_t) : option pyval :=
  match _make_scalar (with_scalar text st s) with
  | Ret (Some p) s' => deref (st_heap s') p
  | _ => None
  end.

(** The values a scalar is allocated as. *)
Definition allocated_scalar (v : pyval) : Prop :=
  match v with
  | VInt _ | VFloat _ | VUnicode _ => True
  | _ => False
  end.

(** Weakest precondition of a computation: it does not exhaust the
    recursion bound, what it returns satisfies [Q], and a NULL dereference
    is allowed only where [crash] holds. *)
Definition wp {A} (crash : Prop) (m : M A) (Q : A -> state -> Prop) (s : state) : Prop :=
  match m s with
  | Ret a s' => Q a s'
  | Segfault _ => crash
  | OutOfFuel => False
  end.

(** [m] returns NULL or a pointer to a value that satisfies [P]. *)
Definition builds (P : pyval -> Prop) (m : M (option PyObject)) : Prop :=
  forall s,
    wp False m
      (fun r s' =>
         match r with
         | Some p => exists v, deref (st_heap s') p = Some v /\ P v
         | None => True
         end) s.

(** An alias event has found its anchor undefined. *)
Definition missed (s : state) : Prop :=
  exists name, In (OpAlias name None) (st_trace s).

(** [s'] differs from [s] in the heap and the error indicator at most. *)
Definition frame (s s' : state) : Prop :=
  st_input s' = st_input s /\ st_event s' = st_event s /\
  st_trace s' = st_trace s /\ st_anchors s' = st_anchors s.

(** Between [s] and [s'] no event was read and no alias went undefined. *)
Definition quiet (s s' : state) : Prop :=
  st_input s' = st_input s /\ st_event s' = st_event s /\ (missed s' <-> missed s).

(** Every alias event of the input carries a name, as those of libyaml
    do. *)
Definition named (i : list scan) : bool :=
  forallb (fun sc => match sc with
                     | Produce e =>
                         match anchor e with
                         | Some _ => true
                         | None => negb (bool_decide (type e = YAML_ALIAS_EVENT))
                         end
                     | ScanError => true
                     end) i.

(** From [s] to [s'] events were read only forward. *)
Definition shrinks (s s' : state) : Prop :=
  (length (st_input s') <= length (st_input s))%nat /\
  (named (st_input s) = true -> named (st_input s') = true).

(** What a call that builds a node leaves behind, from [s] to [s'] with
    result [r]: it read events only forward, at least one if it built
    something, and if an alias went undefined it returned NULL with the
    alias event still in the event slot. *)
Definition node_post (s : state) (r : option PyObject) (s' : state) : Prop :=
  shrinks s s' /\
  (is_Some r -> (length (st_input s') < length (st_input s))%nat) /\
  (missed s' -> r = None /\ type (st_event s') = YAML_ALIAS_EVENT).

(** What the loop of a container leaves behind. *)
Definition loop_post (s : state) (r : option PyObject) (s' : state) : Prop :=
  shrinks s s' /\
  (missed s' -> r = None /\ type (st_event s') = YAML_ALIAS_EVENT).

(** A call that builds a node, usable while fewer than [b] events are
    left.  It dereferences NULL only where [crash] holds, given that the
    alias events left carry a name. *)
Definition node_spec (crash : Prop) (b : nat) (m : M (option PyObject)) : Prop :=
  forall s,
    ~ missed s -> (length (st_input s) < b)%nat ->
    crash \/ named (st_input s) = true ->
    wp crash m (node_post s) s.


(** A tag collaborator that wraps whatever it is given. *)
Definition wrapping_hook : string -> PyObject -> list pyval -> tag_outcome :=
  fun _ _ _ => TagWrap.

Definition plain_scalar (text : string) : scan :=
  Produce (scalar_event None None text YAML_PLAIN_SCALAR_STYLE).

(** The events of a stream of one document with the given body. *)
Definition one_document (body : list scan) : list scan :=
  Produce (plain_event YAML_STREAM_START_EVENT)
  :: Produce (plain_event YAML_DOCUMENT_START_EVENT)
  :: body ++ [Produce (plain_event YAML_DOCUMENT_END_EVENT);
              Produce (plain_event YAML_STREAM_END_EVENT)].

(** A stream of two documents, [1] and [2]. *)
Definition two_documents : list scan :=
  [Produce (plain_event YAML_STREAM_START_EVENT);
   Produce (plain_event YAML_DOCUMENT_START_EVENT);
   plain_scalar "1";
   Produce (plain_event YAML_DOCUMENT_END_EVENT);
   Produce (plain_event YAML_DOCUMENT_START_EVENT);
   plain_scalar "2";
   Produce (plain_event YAML_DOCUMENT_END_EVENT);
   Produce (plain_event YAML_STREAM_END_EVENT)].

(** [&a !!omap [ {k1: v1} ]] *)
Definition anchored_omap : list scan :=
  one_document
    [Produce (sequence_start_event (Some "a") (Some omap_tag));
     Produce (mapping_start_event None None);
     plain_scalar "k1"; plain_scalar "v1";
     Produce (plain_event YAML_MAPPING_END_EVENT);
     Produce (plain_event YAML_SEQUENCE_END_EVENT)].

(** [[ &a !t [1, 2], *a ]] *)
Definition anchored_sequence_and_alias : list scan :=
  one_document
    [Produce (sequence_start_event None None);
     Produce (sequence_start_event (Some "a") (Some "!t"));
     plain_scalar "1"; plain_scalar "2";
     Produce (plain_event YAML_SEQUENCE_END_EVENT);
     Produce (alias_event "a");
     Produce (plain_event YAML_SEQUENCE_END_EVENT)].

(** [{a: 1, a: 2}] *)
Definition duplicate_key_mapping : list scan :=
  one_document
    [Produce (mapping_start_event None None);
     plain_scalar "a"; plain_scalar "1";
     plain_scalar "a"; plain_scalar "2";
     Produce (plain_event YAML_MAPPING_END_EVENT)].

(** A container node is opened: the empty container [fresh] is built at a
    new address, in the state the start event was read in. *)
Definition constructed (fresh : pyval) (s : state) : PyObject * state :=
  let r := Py_Ref (length (st_heap s)) in
  (r, log (OpNew r) (set_heap (st_heap s ++ [fresh]) s)).

(** [name] is registered for [obj]. *)
Definition registered (name : string) (obj : PyObject) (s : state) : state :=
  log (OpMemo (c_str name) obj) (set_anchors (<[c_str name := obj]> (st_anchors s)) s).




(** Every character of [ds] is a digit of [base]. *)
Fixpoint digits_of (base : Z) (ds : string) : bool :=
  match ds with
  | EmptyString => true
  | String c r =>
      match CPython.digit_value c with
      | Some d => (d <? base) && digits_of base r
      | None => false
      end
  end.

(** The number the digits [ds] denote in [base], after the digits that
    gave [acc]. *)
Fixpoint numeral (base : Z) (ds : string) (acc : Z) : Z :=
  match ds with
  | EmptyString => acc
  | String c r =>
      numeral base r (acc * base + match CPython.digit_value c with
                                   | Some d => d
                                   | None => 0
                                   end)
  end.

(** A first character that starts neither a number nor one of the
    literals [_make_scalar] looks for. *)
Definition word_start (c : ascii) : bool :=
  negb (IS_DIGIT c || ch_is c "." || ch_is c "-" || ch_is c "+"
        || ch_is c "n" || ch_is c "t" || ch_is c "f").

(** The events a node starts with. *)
Definition is_node_start (t : yaml_event_type_t) : bool :=
  match t with
  | YAML_ALIAS_EVENT | YAML_SCALAR_EVENT
  | YAML_SEQUENCE_START_EVENT | YAML_MAPPING_START_EVENT => true
  | _ => false
  end.

(** A tag or an anchor that is NULL or the empty string. *)
Definition absent (p : option string) : Prop :=
  match p with
  | None => True
  | Some t => c_str t = ""
  end.

(** The three objects that are not allocated, and the plain scalar each
    is written as. *)
Definition Py_literal (v : option bool) : PyObject :=
  match v with
  | None => Py_None
  | Some true => Py_True
  | Some false => Py_False
  end.

Definition literal_event (v : option bool) : yaml_event_t :=
  scalar_event None None
    match v with
    | None => "null"
    | Some true => "true"
    | Some false => "false"
    end YAML_PLAIN_SCALAR_STYLE.

(** A tag collaborator that raises whatever it is given. *)
Definition raising_hook : string -> PyObject -> list pyval -> tag_outcome :=
  fun _ _ _ => TagRaise {| exc := PyExc_ValueError; msg := "unknown tag" |}.

(** The ValueError with the given message. *)
Definition value_error (m : string) : option pyerr :=
  Some {| exc := PyExc_ValueError; msg := m |}.

(** ** The calculus of [wp] *)

Lemma wp_bind {A B} c (m : M A) (k : A -> M B) Q s :
  wp c (bind m k) Q s = wp c m (fun a s' => wp c (k a) Q s') s.
Proof. unfold wp, bind. destruct (m s); reflexivity. Qed.

Lemma wp_ret {A} c (a : A) Q s : wp c (ret a) Q s = Q a s.
Proof. reflexivity. Qed.

Lemma wp_get {A} c (f : state -> A) Q s : wp c (get f) Q s = Q (f s) s.
Proof. reflexivity. Qed.

Lemma wp_modify c f Q s : wp c (modify f) Q s = Q tt (f s).
Proof. reflexivity. Qed.

Lemma wp_alloc c v Q s :
  wp c (alloc v) Q s = Q (Some (Py_Ref (length (st_heap s)))) (set_heap (st_heap s ++ [v]) s).
Proof. reflexivity. Qed.

Lemma wp_decref c p Q s : wp c (Py_DECREF (Some p)) Q s = Q tt s.
Proof. reflexivity. Qed.

Lemma wp_decref_null c Q s : wp c (Py_DECREF None) Q s = c.
Proof. reflexivity. Qed.

Lemma wp_mono {A} c (m : M A) (Q Q' : A -> state -> Prop) s :
  wp c m Q s -> (forall a s', Q a s' -> Q' a s') -> wp c m Q' s.
Proof. unfold wp. destruct (m s); auto. Qed.

Lemma deref_alloc (h : list pyval) (v : pyval) :
  deref (h ++ [v]) (Py_Ref (length h)) = Some v.
Proof. simpl. apply list_lookup_middle. reflexivity. Qed.

Ltac wp_prim :=
  lazymatch goal with
  | |- wp _ (bind _ _) _ _ => rewrite wp_bind
  | |- wp _ (ret _) _ _ => rewrite wp_ret
  | |- wp _ (get _) _ _ => rewrite wp_get
  | |- wp _ (modify _) _ _ => rewrite wp_modify
  | |- wp _ (alloc _) _ _ => rewrite wp_alloc
  | |- wp _ (Py_DECREF (Some _)) _ _ => rewrite wp_decref
  | |- wp _ (Py_DECREF None) _ _ => rewrite wp_decref_null
  | |- wp _ (PyErr_SetString _ _) _ _ => unfold PyErr_SetString
  | |- wp _ PyErr_Clear _ _ => unfold PyErr_Clear
  | |- wp _ PyErr_Occurred _ _ => unfold PyErr_Occurred
  | |- wp _ null_error _ _ => unfold null_error
  | |- wp _ (PyUnicode_DecodeUTF8 _) _ _ => unfold PyUnicode_DecodeUTF8
  | |- wp _ (PyFloat_FromDouble _) _ _ => unfold PyFloat_FromDouble
  | |- wp _ (PyInt_FromLong _) _ _ => unfold PyInt_FromLong
  | |- wp _ (PyInt_FromString _ _ _) _ _ => unfold PyInt_FromString
  | |- wp _ (PyOS_string_to_double _) _ _ => unfold PyOS_string_to_double
  | |- wp _ (if ?b then _ else _) _ _ => destruct b eqn:?
  | |- wp _ (match ?x with _ => _ end) _ _ => destruct x eqn:?
  end.

Ltac built :=
  simplify_eq/=; try done;
  try (eexists; split; [apply (deref_alloc _ _) | exact I]).

Lemma builds_treat_as_string : builds allocated_scalar treat_as_string.
Proof. intros s. unfold treat_as_string. repeat wp_prim; built. Qed.

Lemma builds_float_or_string : builds allocated_scalar float_or_string.
Proof.
  intros s. unfold float_or_string.
  repeat first [ wp_prim | apply builds_treat_as_string ]; built.
Qed.

Lemma builds_after_switch k : builds allocated_scalar (after_switch k).
Proof.
  intros s. unfold after_switch.
  repeat first [ wp_prim | apply builds_float_or_string | apply builds_treat_as_string ]; built.
Qed.

Lemma builds_whole_int k b : builds allocated_scalar (whole_int k b).
Proof.
  intros s. unfold whole_int.
  repeat first [ wp_prim | apply builds_after_switch ]; built.
Qed.

Lemma code_inj c1 c2 : code c1 = code c2 -> c1 = c2.
Proof.
  unfold code. intros H. apply N2Z.inj in H.
  rewrite <- (ascii_N_embedding c1), <- (ascii_N_embedding c2). congruence.
Qed.

Lemma strncmp_c_str lit : forall p n,
  (String.length lit < n)%nat -> c_str lit = lit ->
  strncmp p lit n = 0 <-> c_str p = lit.
Proof.
  assert (Hcode : forall c d, c <> d -> code c - code d <> 0).
  { intros c d Hcd H. apply Hcd, code_inj. lia. }
  induction lit as [|l r IH]; intros p [|n] Hn Hlit;
    cbn [String.length] in Hn; try lia.
  - cbn [strncmp hd tl]. destruct p as [|c q]; cbn [hd tl c_str].
    + rewrite Ascii.eqb_refl. cbn [negb]. tauto.
    + destruct (Ascii.eqb_spec c NUL) as [->|Hc]; cbn [negb]; [tauto|].
      split; [|discriminate]. intros H. exfalso. eapply Hcode; eauto.
  - cbn [c_str] in Hlit. destruct (Ascii.eqb_spec l NUL) as [->|Hl]; [discriminate|].
    injection Hlit as Hr. cbn [strncmp hd tl].
    destruct p as [|c q]; cbn [hd tl c_str].
    + destruct (Ascii.eqb_spec NUL l) as [<-|Hc]; [done|]. cbn [negb].
      split; [|discriminate]. intros H. exfalso. eapply Hcode; eauto.
    + destruct (Ascii.eqb_spec c l) as [->|Hc]; cbn [negb].
      * destruct (Ascii.eqb_spec l NUL); [done|].
        rewrite (IH q n) by (auto; lia). split; congruence.
      * split.
        -- intros H. exfalso. eapply Hcode; eauto.
        -- destruct (Ascii.eqb_spec c NUL); [discriminate|]. congruence.
Qed.

Lemma make_scalar_classes s :
  wp False _make_scalar
    (fun r s' =>
       let text := value (st_event s) in
       match r with
       | None => True
       | Some p =>
           (exists v, deref (st_heap s') p = Some v /\ allocated_scalar v) \/
           (quoted (style (st_event s)) = false /\
            ((p = Py_None /\ ch_is (at_ text 0) "n" = true
                /\ strncmp (ptr_add text 1) "ull" 4 = 0) \/
             (p = Py_True /\ ch_is (at_ text 0) "t" = true
                /\ strncmp (ptr_add text 1) "rue" 4 = 0) \/
             (p = Py_False /\ ch_is (at_ text 0) "f" = true
                /\ strncmp (ptr_add text 1) "alse" 5 = 0)))
       end) s.
Proof.
  unfold _make_scalar. rewrite wp_bind, wp_get.
  destruct (_ || _) eqn:Hq.
  { repeat wp_prim; built. left. built. }
  assert (quoted (style (st_event s)) = false) as Hu.
  { unfold quoted. apply orb_false_iff in Hq as [Hq ?].
    apply orb_false_iff in Hq as [? ?]. apply orb_false_iff. split; assumption. }
  repeat first
    [ wp_prim
    | eapply wp_mono;
      [ first [ apply builds_after_switch | apply builds_whole_int
              | apply builds_treat_as_string ]
      | intros [p|] s' H; [left; exact H | exact I] ] ].
  all: try solve [left; built].
  all: repeat match goal with H : (_ =? _) = true |- _ => apply Z.eqb_eq in H end.
  all: right; split; [assumption|]; tauto.
Qed.

Lemma resolve_classes s text st v :
  resolve s text st = Some v ->
  allocated_scalar v \/
  (quoted st = false /\
   ((v = VNone /\ ch_is (at_ text 0) "n" = true /\ strncmp (ptr_add text 1) "ull" 4 = 0) \/
    (v = VBool true /\ ch_is (at_ text 0) "t" = true
       /\ strncmp (ptr_add text 1) "rue" 4 = 0) \/
    (v = VBool false /\ ch_is (at_ text 0) "f" = true
       /\ strncmp (ptr_add text 1) "alse" 5 = 0))).
Proof.
  unfold resolve. pose proof (make_scalar_classes (with_scalar text st s)) as H.
  unfold wp in H. destruct (_make_scalar _) as [[p|] s'| |]; try discriminate.
  cbn [with_scalar set_input st_event value style scalar_event] in H.
  intros Hv. destruct H as [(w & Hw & Ha)|(Hq & H)].
  - left. congruence.
  - right. split; [assumption|].
    destruct H as [(-> & ?)|[(-> & ?)|(-> & ?)]]; simpl in Hv; simplify_eq; tauto.
Qed.

Lemma literal_text text (c : ascii) (lit : string) n :
  c_str text = text -> c_str (String c lit) = String c lit ->
  (String.length lit < n)%nat ->
  ch_is (at_ text 0) c = true -> strncmp (ptr_add text 1) lit n = 0 ->
  text = String c lit.
Proof.
  intros Ht Hl Hn Hc Hs. cbn [c_str] in Hl.
  destruct (Ascii.eqb c NUL) eqn:Hnul; [discriminate|]. injection Hl as Hl.
  destruct text as [|c0 q]; cbn [at_ ptr_add hd ch_is] in Hc.
  - apply Ascii.eqb_eq in Hc. subst c. discriminate.
  - apply Ascii.eqb_eq in Hc. subst c0. cbn [c_str] in Ht. rewrite Hnul in Ht.
    injection Ht as Ht. cbn [ptr_add tl] in Hs.
    apply strncmp_c_str in Hs; auto. congruence.
Qed.

(** ** The Scalar Resolver *)

Lemma resolve_quoted s text st :
  String.length text = O \/ quoted st = true ->
  resolve s text st = VUnicode <$> Utf8.decode text.
Proof.
  intros Hq. unfold resolve, _make_scalar, bind at 1, get at 1.
  cbn [with_scalar set_input st_event value style scalar_event].
  replace (_ || _) with true.
  - unfold PyUnicode_DecodeUTF8. destruct (Utf8.decode text) as [cps|]; [|reflexivity].
    cbn [alloc fmap option_fmap option_map]. apply deref_alloc.
  - symmetry. unfold quoted in Hq. destruct Hq as [Hl|Hq].
    + rewrite (bool_decide_eq_true_2 _ Hl). reflexivity.
    + apply orb_true_iff in Hq as [->| ->]; rewrite ?orb_true_r; reflexivity.
Qed.

(** C6: a scalar of length 0, or in single or double quotes, resolves to
    the String that is the UTF-8 decoding of its bytes (to nothing when
    the bytes do not decode), so never to a Null, a Bool, an Int or a
    Float, whatever its text. *)
Theorem quoted_scalar_is_string s text st :
  String.length text = O \/ st = YAML_SINGLE_QUOTED_SCALAR_STYLE
    \/ st = YAML_DOUBLE_QUOTED_SCALAR_STYLE ->
  resolve s text st = VUnicode <$> Utf8.decode text /\
  (forall v, resolve s text st = Some v ->
             exists cps, v = VUnicode cps /\ Utf8.decode text = Some cps).
Proof.
  intros Hq.
  assert (resolve s text st = VUnicode <$> Utf8.decode text) as Hr.
  { apply resolve_quoted. destruct Hq as [?|[-> | ->]]; auto. }
  split; [exact Hr|]. intros v Hv. rewrite Hr in Hv.
  destruct (Utf8.decode text) as [cps|]; [|discriminate].
  exists cps. split; [|reflexivity]. cbn in Hv. congruence.
Qed.

Lemma quoted_scalar_is_string_witness :
  (String.length "true" = O \/ YAML_SINGLE_QUOTED_SCALAR_STYLE = YAML_SINGLE_QUOTED_SCALAR_STYLE
     \/ YAML_SINGLE_QUOTED_SCALAR_STYLE = YAML_DOUBLE_QUOTED_SCALAR_STYLE) /\
  resolve (initial_state []) "true" YAML_SINGLE_QUOTED_SCALAR_STYLE
  = Some (VUnicode (Utf8.of_ascii "true")).
Proof.
  split.
  - right. left. reflexivity.
  - apply (quoted_scalar_is_string (initial_state []) "true" YAML_SINGLE_QUOTED_SCALAR_STYLE).
    right. left. reflexivity.
Defined.

Ltac resolve_literal :=
  unfold resolve; vm_compute; first [reflexivity | apply deref_alloc].

(** C7: hexadecimal and octal scalars must match whole: 0x1A is Int 26,
    0x1G the String "0x1G", 010 is Int 8, 0 is Int 0, and 019, not an
    octal numeral, comes out of the decimal path as Int 19. *)
Theorem hex_octal_whole_match s st :
  quoted st = false ->
  resolve s "0x1A" st = Some (VInt 26) /\
  resolve s "0x1G" st = Some (VUnicode (Utf8.of_ascii "0x1G")) /\
  resolve s "010" st = Some (VInt 8) /\
  resolve s "0" st = Some (VInt 0) /\
  resolve s "019" st = Some (VInt 19).
Proof.
  intros Hq. destruct st; try discriminate Hq; repeat split; resolve_literal.
Qed.

Lemma hex_octal_whole_match_witness :
  quoted YAML_PLAIN_SCALAR_STYLE = false /\
  resolve (initial_state []) "019" YAML_PLAIN_SCALAR_STYLE = Some (VInt 19).
Proof.
  split; [reflexivity|].
  apply (hex_octal_whole_match (initial_state []) YAML_PLAIN_SCALAR_STYLE). reflexivity.
Defined.

(** C8: unquoted .NaN and .nan are Float NaN; .Inf and .inf are Float
    +Infinity; -.Inf and -.inf are Float -Infinity; +.Inf and +.inf are
    Float +Infinity.  The texts are matched literally: other spellings
    such as .INF, .NAN, .Nan or -.INF are Strings.  The literal checks
    come first: the generic float parser, which runs after them,
    recognises none of the eight texts. *)
Theorem literal_nan_and_infinities s st :
  quoted st = false ->
  (resolve s ".NaN" st = Some (VFloat S754_nan) /\
   resolve s ".nan" st = Some (VFloat S754_nan) /\
   resolve s ".Inf" st = Some (VFloat (S754_infinity false)) /\
   resolve s ".inf" st = Some (VFloat (S754_infinity false)) /\
   resolve s "-.Inf" st = Some (VFloat (S754_infinity true)) /\
   resolve s "-.inf" st = Some (VFloat (S754_infinity true)) /\
   resolve s "+.Inf" st = Some (VFloat (S754_infinity false)) /\
   resolve s "+.inf" st = Some (VFloat (S754_infinity false))) /\
  (resolve s ".INF" st = Some (VUnicode (Utf8.of_ascii ".INF")) /\
   resolve s ".NAN" st = Some (VUnicode (Utf8.of_ascii ".NAN")) /\
   resolve s ".Nan" st = Some (VUnicode (Utf8.of_ascii ".Nan")) /\
   resolve s "-.INF" st = Some (VUnicode (Utf8.of_ascii "-.INF")) /\
   resolve s "+.INF" st = Some (VUnicode (Utf8.of_ascii "+.INF"))) /\
  Forall (fun text => CPython.sd_end (CPython._PyOS_ascii_strtod text) = O)
    [".NaN"; ".nan"; ".Inf"; ".inf"; "-.Inf"; "-.inf"; "+.Inf"; "+.inf"].
Proof.
  intros Hq. destruct st; try discriminate Hq; repeat split; try resolve_literal.
  all: repeat constructor.
Qed.

Lemma literal_nan_and_infinities_witness :
  quoted YAML_PLAIN_SCALAR_STYLE = false /\
  resolve (initial_state []) "-.inf" YAML_PLAIN_SCALAR_STYLE
  = Some (VFloat (S754_infinity true)).
Proof.
  split; [reflexivity|].
  apply (literal_nan_and_infinities (initial_state []) YAML_PLAIN_SCALAR_STYLE). reflexivity.
Defined.

(** C9: of the texts without a NUL byte, only the lower-case null, true
    and false, unquoted, resolve to Null, Bool true and Bool false; the
    other spellings of the core schema (Null, NULL, ~, True, TRUE, False,
    FALSE) resolve to Strings. *)
Theorem only_lowercase_null_true_false s text st :
  c_str text = text ->
  (resolve s text st = Some VNone <-> quoted st = false /\ text = "null") /\
  (resolve s text st = Some (VBool true) <-> quoted st = false /\ text = "true") /\
  (resolve s text st = Some (VBool false) <-> quoted st = false /\ text = "false") /\
  (quoted st = false ->
   Forall (fun t => resolve s t st = Some (VUnicode (Utf8.of_ascii t)))
     ["Null"; "NULL"; "~"; "True"; "TRUE"; "False"; "FALSE"]).
Proof.
  intros Ht.
  assert (forall v, resolve s text st = Some v -> ~ allocated_scalar v ->
            quoted st = false /\
            ((v = VNone /\ text = "null") \/ (v = VBool true /\ text = "true") \/
             (v = VBool false /\ text = "false"))) as Hcls.
  { intros v Hv Hna. apply resolve_classes in Hv as [Ha|[Hq Hv]]; [contradiction|].
    split; [assumption|].
    destruct Hv as [(-> & Hc & Hs)|[(-> & Hc & Hs)|(-> & Hc & Hs)]];
      [left|right; left|right; right]; (split; [reflexivity|]);
      eapply literal_text; eauto; cbn; lia. }
  split; [split|split; [split|split; [split|]]].
  - intros Hv. apply Hcls in Hv as [Hq Hv]; [|simpl; tauto].
    destruct Hv as [[_ ?]|[[? _]|[? _]]]; try discriminate. tauto.
  - intros [Hq ->]. destruct st; try discriminate Hq; resolve_literal.
  - intros Hv. apply Hcls in Hv as [Hq Hv]; [|simpl; tauto].
    destruct Hv as [[? _]|[[_ ?]|[? _]]]; try discriminate. tauto.
  - intros [Hq ->]. destruct st; try discriminate Hq; resolve_literal.
  - intros Hv. apply Hcls in Hv as [Hq Hv]; [|simpl; tauto].
    destruct Hv as [[? _]|[[? _]|[_ ?]]]; try discriminate. tauto.
  - intros [Hq ->]. destruct st; try discriminate Hq; resolve_literal.
  - intros Hq. destruct st; try discriminate Hq; repeat constructor; resolve_literal.
Qed.

Lemma only_lowercase_null_true_false_witness :
  c_str "null" = "null" /\
  (resolve (initial_state []) "null" YAML_PLAIN_SCALAR_STYLE = Some VNone
   <-> quoted YAML_PLAIN_SCALAR_STYLE = false /\ "null" = "null").
Proof.
  split; [reflexivity|].
  apply (only_lowercase_null_true_false (initial_state []) "null" YAML_PLAIN_SCALAR_STYLE).
  reflexivity.
Defined.

(** ** Frames of the primitives *)

Ltac proj_simpl :=
  cbn [st_input st_event st_trace st_anchors st_heap st_err
       set_err set_heap set_input set_anchors log] in *.

Lemma named_tail x i : named (x :: i) = true -> named i = true.
Proof. cbn [named forallb]. intros H. apply andb_true_iff in H. apply H. Qed.

Lemma named_alias e i :
  named (Produce e :: i) = true -> type e = YAML_ALIAS_EVENT -> is_Some (anchor e).
Proof.
  cbn [named forallb]. intros H Ht. apply andb_true_iff in H as [H _].
  destruct (anchor e); [eauto|]. rewrite (bool_decide_eq_true_2 _ Ht) in H. discriminate.
Qed.

Ltac len_core :=
  proj_simpl;
  repeat match goal with H : st_input _ = _ |- _ => rewrite H end;
  cbn [length]; lia.

(** [named] of the input at hand, from what is known of the earlier ones. *)
Ltac named_solve :=
  intros;
  repeat match goal with
         | H : shrinks _ _ |- _ => destruct H as [? ?]
         | H : quiet _ _ |- _ => destruct H as (? & ? & ?)
         | H : frame _ _ |- _ => destruct H as (? & ? & ? & ?)
         end;
  proj_simpl;
  repeat match goal with
         | H : _ :: _ = st_input _ |- _ => symmetry in H
         | H : [] = st_input _ |- _ => symmetry in H
         | H : st_input _ = _ |- _ => rewrite H in *
         end;
  repeat match goal with
         | H : named ?a = true -> named ?b = true, Hn : named ?a = true |- _ =>
             specialize (H Hn)
         | H : named (_ :: _) = true |- _ => apply named_tail in H
         end;
  first [assumption | reflexivity].

Ltac len :=
  repeat match goal with
         | H : shrinks _ _ |- _ => destruct H as [? ?]
         end;
  proj_simpl;
  lazymatch goal with
  | |- shrinks _ _ => split; [len_core|named_solve]
  | |- _ => len_core
  end.

(** The alias events still to be read carry a name, or [crash] holds. *)
Ltac safe :=
  lazymatch goal with
  | H : ?c \/ named _ = true |- ?c \/ named _ = true =>
      destruct H as [H|H]; [left; exact H|right; named_solve]
  end.

(** [Py_DECREF] of a result that is NULL only where [crash] holds. *)
Ltac crashed :=
  match goal with
  | H : ?c \/ is_Some None |- _ => destruct H as [H|[? H]]; [exact H|discriminate H]
  end.

Lemma wp_crash {A} c (m : M A) Q s : wp False m Q s -> wp c m Q s.
Proof. unfold wp. destruct (m s); tauto. Qed.

Lemma frame_refl s : frame s s.
Proof. repeat split. Qed.

Lemma frame_trans s1 s2 s3 : frame s1 s2 -> frame s2 s3 -> frame s1 s3.
Proof. unfold frame. intros (? & ? & ? & ?) (? & ? & ? & ?). repeat split; congruence. Qed.

Lemma frame_quiet s s' : frame s s' -> quiet s s'.
Proof.
  intros (Hi & He & Ht & _). repeat split; auto; unfold missed; rewrite Ht; auto.
Qed.

Lemma quiet_refl s : quiet s s.
Proof. repeat split; auto. Qed.

Lemma quiet_trans s1 s2 s3 : quiet s1 s2 -> quiet s2 s3 -> quiet s1 s3.
Proof.
  unfold quiet. intros (? & ? & ?) (? & ? & ?). repeat split; try congruence; tauto.
Qed.

Lemma missed_log o s :
  (forall name, o <> OpAlias name None) -> missed (log o s) <-> missed s.
Proof.
  intros Ho. unfold missed. proj_simpl. split; intros [name H]; exists name.
  - apply in_app_or in H as [H|[H|[]]]; [assumption|]. destruct (Ho name H).
  - apply in_or_app. left. assumption.
Qed.

Lemma quiet_log o s :
  (forall name, o <> OpAlias name None) -> quiet s (log o s).
Proof. intros Ho. repeat split; auto; apply missed_log; auto. Qed.

Ltac frame_step :=
  first
    [ wp_prim
    | match goal with
      | |- frame _ _ => repeat split; proj_simpl; congruence
      | H : frame ?a ?b |- frame ?c ?b =>
          apply (frame_trans c a b); [repeat split|exact H]
      end ].

Lemma frame_treat_as_string s : wp False treat_as_string (fun _ s' => frame s s') s.
Proof. unfold treat_as_string. repeat frame_step. Qed.

Lemma frame_float_or_string s : wp False float_or_string (fun _ s' => frame s s') s.
Proof.
  unfold float_or_string.
  repeat first [ frame_step
               | eapply wp_mono; [apply frame_treat_as_string|intros ? ? ?; cbv beta in *] ].
Qed.

Lemma frame_after_switch k s : wp False (after_switch k) (fun _ s' => frame s s') s.
Proof.
  unfold after_switch.
  repeat first [ frame_step
               | eapply wp_mono;
                 [first [apply frame_treat_as_string | apply frame_float_or_string]
                 |intros ? ? ?; cbv beta in *] ].
Qed.

Lemma frame_whole_int k b s : wp False (whole_int k b) (fun _ s' => frame s s') s.
Proof.
  unfold whole_int.
  repeat first [ frame_step
               | eapply wp_mono; [apply frame_after_switch|intros ? ? ?; cbv beta in *] ].
Qed.

Lemma frame__make_scalar s : wp False _make_scalar (fun _ s' => frame s s') s.
Proof.
  unfold _make_scalar.
  repeat first [ frame_step
               | eapply wp_mono;
                 [first [apply frame_treat_as_string | apply frame_after_switch
                        | apply frame_whole_int]
                 |intros ? ? ?; cbv beta in *] ].
Qed.

Lemma frame_SetItem o k v s : wp False (PyObject_SetItem o k v) (fun _ s' => frame s s') s.
Proof. unfold PyObject_SetItem. repeat frame_step. Qed.

Lemma frame_append o i s :
  wp False (PyObject_CallMethod_append o i) (fun _ s' => frame s s') s.
Proof. unfold PyObject_CallMethod_append. repeat frame_step. Qed.

Lemma quiet_set_heap s s' h : quiet s s' -> quiet s (set_heap h s').
Proof. intros (? & ? & ?). repeat split; auto; tauto. Qed.

Lemma quiet_set_err s s' e : quiet s s' -> quiet s (set_err e s').
Proof. intros (? & ? & ?). repeat split; auto; tauto. Qed.

Lemma quiet_set_anchors s s' a : quiet s s' -> quiet s (set_anchors a s').
Proof. intros (? & ? & ?). repeat split; auto; tauto. Qed.

Lemma quiet_after_log s s' o :
  (forall name, o <> OpAlias name None) -> quiet s s' -> quiet s (log o s').
Proof. intros Ho H. eapply quiet_trans; [exact H|]. apply quiet_log, Ho. Qed.

Ltac quiet_solve :=
  repeat first
    [ assumption
    | apply quiet_refl
    | apply quiet_set_heap
    | apply quiet_set_err
    | apply quiet_set_anchors
    | apply quiet_after_log; [intros ?; discriminate|]
    | match goal with
      | H : frame ?a ?b |- quiet _ ?b =>
          apply (quiet_trans _ a b); [|apply frame_quiet; exact H]
      | H : quiet ?a ?b |- quiet _ ?b =>
          apply (quiet_trans _ a b); [|exact H]
      end ].

Ltac quiet_step := first [ wp_prim | progress quiet_solve ].

Lemma quiet_PyList_New s :
  wp False PyList_New (fun r s' => is_Some r /\ quiet s s') s.
Proof. unfold PyList_New. repeat quiet_step; simplify_eq. split; [eauto|quiet_solve]. Qed.

Lemma quiet_PyDict_New s :
  wp False PyDict_New (fun r s' => is_Some r /\ quiet s s') s.
Proof. unfold PyDict_New. repeat quiet_step; simplify_eq. split; [eauto|quiet_solve]. Qed.

Lemma quiet_ordered_dict s :
  wp False ordered_dict (fun r s' => is_Some r /\ quiet s s') s.
Proof. unfold ordered_dict. repeat quiet_step; simplify_eq. split; [eauto|quiet_solve]. Qed.

Lemma quiet_memo_anchor a o s :
  wp False (memo_anchor a o) (fun rc s' => rc = 0 /\ quiet s s') s.
Proof.
  unfold memo_anchor, PyDict_SetItemString.
  repeat quiet_step; (split; [reflexivity|quiet_solve]).
Qed.

Lemma wp_yaml_parser_parse c Q s :
  wp c yaml_parser_parse Q s =
  match st_input s with
  | [] => Q true (set_input [] (plain_event YAML_NO_EVENT) s)
  | Produce e :: rest => Q true (set_input rest e s)
  | ScanError :: _ => Q false (set_input [] (plain_event YAML_NO_EVENT) s)
  end.
Proof. unfold wp, yaml_parser_parse. destruct (st_input s) as [|[e|] rest]; reflexivity. Qed.

Lemma make_alias_post crash s :
  crash \/ is_Some (anchor (st_event s)) ->
  wp crash make_alias
    (fun r s' =>
       st_input s' = st_input s /\ st_event s' = st_event s /\
       (is_Some r -> (missed s' <-> missed s))) s.
Proof.
  intros Hc. unfold make_alias, PyDict_GetItemString. rewrite wp_bind, wp_get.
  destruct (anchor (st_event s)) as [name|]; [|crashed].
  repeat wp_prim; (split; [reflexivity|split; [reflexivity|]]).
  - intros _. apply missed_log. intros ? ?. congruence.
  - intros [? ?]. discriminate.
Qed.

Section WithHook.

Variable hook : string -> PyObject -> list pyval -> tag_outcome.

(** NULL is dereferenced only where [crash] holds: the tag collaborator
    has to raise for that, or an alias event to be without a name. *)
Variable crash : Prop.
Hypothesis Hraise : forall t i h e, hook t i h = TagRaise e -> crash.

Lemma quiet_tag_object t i s :
  wp False (tag_object hook t i)
    (fun r s' => (is_Some i -> crash \/ is_Some r) /\ quiet s s') s.
Proof.
  unfold tag_object, PyObject_CallFunction_tag.
  repeat quiet_step; simplify_eq; (split; [|quiet_solve]); intros Hi;
    first [right; eauto; fail | left; eapply Hraise; eassumption].
Qed.

Lemma quiet_make_scalar s :
  wp False (make_scalar hook) (fun _ s' => quiet s s') s.
Proof.
  unfold make_scalar. rewrite wp_bind, wp_get, wp_bind.
  eapply wp_mono; [apply frame__make_scalar|]. intros scalar s1 H1. cbv beta.
  rewrite wp_bind. eapply wp_mono; [apply quiet_tag_object|]. intros tagged s2 [_ H2].
  cbv beta. rewrite wp_bind. eapply wp_mono; [apply quiet_memo_anchor|].
  intros rc s3 [-> H3]. cbn [Z.eqb negb]. rewrite wp_ret.
  apply frame_quiet in H1. cbv beta in *. eauto using quiet_trans.
Qed.

Lemma quiet_not_missed s s' : quiet s s' -> ~ missed s -> ~ missed s'.
Proof. intros (_ & _ & H). tauto. Qed.

Lemma quiet_length s s' : quiet s s' -> length (st_input s') = length (st_input s).
Proof. intros (H & _). rewrite H. reflexivity. Qed.

Lemma loop_post_weaken s0 s1 r s' :
  shrinks s0 s1 -> loop_post s1 r s' -> loop_post s0 r s'.
Proof.
  intros [Hle Hn] [[Hle' Hn'] H2]. split; [split; [lia|auto]|exact H2].
Qed.

(** *** The loops, for any child call that meets [node_spec] *)
Section Loops.

Variable b : nat.
Variable pn : M (option PyObject).
Hypothesis Hpn : node_spec crash b pn.

Lemma child_clean s sub s1 :
  node_post s (Some sub) s1 ->
  ~ missed s1 /\ (length (st_input s1) < length (st_input s))%nat /\ shrinks s s1.
Proof.
  intros (Hsh & Hlt & Hmiss). split; [|split; [apply Hlt; eauto|exact Hsh]].
  intros Hx. destruct (Hmiss Hx). discriminate.
Qed.

Lemma parse_sequence_loop_spec n : forall result s,
  ~ missed s -> (length (st_input s) < n)%nat -> (length (st_input s) < b)%nat ->
  crash \/ is_Some result -> crash \/ named (st_input s) = true ->
  wp crash (parse_sequence_loop pn n result) (loop_post s) s.
Proof.
  induction n as [|n IH]; intros result s Hm Hn Hb Hres Hnm; [lia|].
  cbn [parse_sequence_loop]. rewrite wp_bind.
  eapply wp_mono; [apply Hpn; assumption|]. intros sub s1 Hpost. cbv beta.
  destruct sub as [sub|].
  - apply child_clean in Hpost as (Hm1 & Hlt & Hsh1).
    rewrite wp_bind. eapply wp_mono; [apply wp_crash, frame_append|].
    intros appended s2 Hq%frame_quiet. cbv beta.
    pose proof (quiet_not_missed _ _ Hq Hm1) as Hm2.
    pose proof (quiet_length _ _ Hq) as Hl2.
    destruct appended.
    + rewrite wp_bind, wp_decref.
      eapply wp_mono; [apply IH; [assumption|lia|lia|assumption|safe]|].
      intros r s3. apply loop_post_weaken. len.
    + rewrite wp_bind, wp_decref, wp_bind.
      destruct result; [|rewrite wp_decref_null; crashed].
      rewrite wp_decref, wp_ret. split; [len|]. intros Hx. contradiction.
  - destruct Hpost as (Hle & _ & Hmiss).
    rewrite wp_bind, wp_get.
    destruct (bool_decide (type (st_event s1) = YAML_SEQUENCE_END_EVENT)) eqn:He;
      cbn [negb].
    + rewrite wp_ret. split; [exact Hle|]. intros Hx. destruct (Hmiss Hx) as [_ Ht].
      apply bool_decide_eq_true_1 in He. congruence.
    + unfold PyErr_SetString. rewrite wp_bind, wp_modify, wp_bind.
      destruct result; [|rewrite wp_decref_null; crashed].
      rewrite wp_decref, wp_ret. split; [exact Hle|].
      intros Hx. split; [reflexivity|]. apply Hmiss. exact Hx.
Qed.

Lemma parse_mapping_loop_spec n : forall result s,
  ~ missed s -> (length (st_input s) < n)%nat -> (length (st_input s) < b)%nat ->
  crash \/ is_Some result -> crash \/ named (st_input s) = true ->
  wp crash (parse_mapping_loop pn n result) (loop_post s) s.
Proof.
  induction n as [|n IH]; intros result s Hm Hn Hb Hres Hnm; [lia|].
  cbn [parse_mapping_loop]. rewrite wp_bind.
  eapply wp_mono; [apply Hpn; assumption|]. intros key s1 Hpost. cbv beta.
  destruct key as [k|].
  - apply child_clean in Hpost as (Hm1 & Hlt & Hsh1).
    rewrite wp_bind. eapply wp_mono; [apply Hpn; [assumption|lia|safe]|].
    intros val s2 Hpost2. cbv beta.
    destruct val as [v|].
    + apply child_clean in Hpost2 as (Hm2 & Hlt2 & Hsh2).
      rewrite wp_bind. eapply wp_mono; [apply wp_crash, frame_SetItem|].
      intros rc s3 Hq%frame_quiet. cbv beta.
      pose proof (quiet_not_missed _ _ Hq Hm2) as Hm3.
      pose proof (quiet_length _ _ Hq) as Hl3.
      destruct (negb (rc =? 0)).
      * rewrite wp_bind, wp_decref, wp_bind, wp_decref, wp_bind.
        destruct result; [|rewrite wp_decref_null; crashed].
        rewrite wp_decref, wp_ret. split; [len|]. intros Hx. contradiction.
      * rewrite wp_bind, wp_decref, wp_bind, wp_decref.
        eapply wp_mono; [apply IH; [assumption|lia|lia|assumption|safe]|].
        intros r s4. apply loop_post_weaken. len.
    + destruct Hpost2 as (Hle2 & _ & Hmiss2).
      rewrite wp_bind, wp_decref, wp_bind.
      destruct result; [|rewrite wp_decref_null; crashed].
      rewrite wp_decref, wp_ret. split; [len|].
      intros Hx. split; [reflexivity|]. apply Hmiss2. exact Hx.
  - destruct Hpost as (Hle & _ & Hmiss).
    rewrite wp_bind, wp_get.
    destruct (bool_decide (type (st_event s1) = YAML_MAPPING_END_EVENT)) eqn:He;
      cbn [negb].
    + rewrite wp_ret. split; [exact Hle|]. intros Hx. destruct (Hmiss Hx) as [_ Ht].
      apply bool_decide_eq_true_1 in He. congruence.
    + unfold PyErr_SetString. rewrite wp_bind, wp_modify, wp_bind.
      destruct result; [|rewrite wp_decref_null; crashed].
      rewrite wp_decref, wp_ret. split; [exact Hle|].
      intros Hx. split; [reflexivity|]. apply Hmiss. exact Hx.
Qed.

Lemma parse_ordered_dict_loop_spec n : forall result s,
  ~ missed s -> (length (st_input s) < n)%nat -> (length (st_input s) < b)%nat ->
  crash \/ named (st_input s) = true ->
  wp crash (parse_ordered_dict_loop pn n result) (loop_post s) s.
Proof.
  induction n as [|n IH]; intros result s Hm Hn Hb Hnm; [lia|].
  cbn [parse_ordered_dict_loop]. rewrite wp_bind, wp_yaml_parser_parse.
  assert (forall i e x, ~ missed (set_err x (set_input i e s))) as Hclean.
  { intros i e x Hx. apply Hm. exact Hx. }
  destruct (st_input s) as [|[e|] rest] eqn:Hin; cbn [negb length] in *.
  - rewrite wp_bind, wp_get. proj_simpl. cbn [plain_event type].
    rewrite !bool_decide_eq_false_2 by discriminate. cbn [negb].
    unfold PyErr_SetString. rewrite wp_bind, wp_modify, wp_bind, wp_decref, wp_ret.
    split; [len|]. intros Hx. destruct (Hclean _ _ _ Hx).
  - rewrite wp_bind, wp_get. proj_simpl.
    destruct (bool_decide (type e = YAML_SEQUENCE_END_EVENT)).
    { rewrite wp_ret. split; [len|]. intros Hx. destruct Hm. exact Hx. }
    destruct (bool_decide (type e = YAML_MAPPING_START_EVENT)); cbn [negb].
    2:{ unfold PyErr_SetString. rewrite wp_bind, wp_modify, wp_bind, wp_decref, wp_ret.
        split; [len|]. intros Hx. destruct (Hclean _ _ _ Hx). }
    rewrite wp_bind.
    eapply wp_mono; [apply Hpn; [intros Hx; apply Hm; exact Hx|proj_simpl; lia|safe]|].
    intros key s1 Hpost. cbv beta. proj_simpl.
    destruct key as [k|].
    2:{ destruct Hpost as (Hle & _ & Hmiss). rewrite wp_bind, wp_decref, wp_ret.
        proj_simpl. split; [len|]. exact Hmiss. }
    apply child_clean in Hpost as (Hm1 & Hlt & Hsh1). proj_simpl.
    rewrite wp_bind. eapply wp_mono; [apply Hpn; [assumption|lia|safe]|].
    intros val s2 Hpost2. cbv beta.
    destruct val as [v|].
    2:{ destruct Hpost2 as (Hle2 & _ & Hmiss2).
        rewrite wp_bind, wp_decref, wp_bind, wp_decref, wp_ret.
        split; [len|]. exact Hmiss2. }
    apply child_clean in Hpost2 as (Hm2 & Hlt2 & Hsh2).
    rewrite wp_bind. eapply wp_mono; [apply wp_crash, frame_SetItem|].
    intros rc s3 Hq%frame_quiet. cbv beta.
    pose proof (quiet_not_missed _ _ Hq Hm2) as Hm3.
    pose proof (quiet_length _ _ Hq) as Hl3.
    destruct (negb (rc =? 0)).
    { rewrite wp_bind, wp_decref, wp_bind, wp_decref, wp_bind, wp_decref, wp_ret.
      split; [len|]. intros Hx. contradiction. }
    rewrite wp_bind, wp_decref, wp_bind, wp_decref, wp_bind, wp_yaml_parser_parse.
    assert (forall i e x, ~ missed (set_err x (set_input i e s3))) as Hclean3.
    { intros i e' x Hx. apply Hm3. exact Hx. }
    destruct (st_input s3) as [|[e2|] rest2] eqn:Hin3; cbn [negb length] in *.
    + rewrite wp_bind, wp_get. proj_simpl. cbn [plain_event type].
      rewrite !bool_decide_eq_false_2 by discriminate. cbn [negb].
      unfold PyErr_SetString. rewrite wp_bind, wp_modify, wp_bind, wp_decref, wp_ret.
      split; [len|]. intros Hx. destruct (Hclean3 _ _ _ Hx).
    + rewrite wp_bind, wp_get. proj_simpl.
      destruct (bool_decide (type e2 = YAML_MAPPING_END_EVENT)); cbn [negb].
      2:{ unfold PyErr_SetString. rewrite wp_bind, wp_modify, wp_bind, wp_decref, wp_ret.
          split; [len|]. intros Hx. destruct (Hclean3 _ _ _ Hx). }
      eapply wp_mono;
        [apply IH; [intros Hx; apply Hm3; exact Hx|proj_simpl; lia|proj_simpl; lia|safe]|].
      intros r s4. apply loop_post_weaken. len.
    + unfold PyErr_SetString. rewrite wp_bind, wp_modify, wp_bind, wp_decref, wp_ret.
      split; [len|]. intros Hx. destruct (Hclean3 _ _ _ Hx).
  - unfold PyErr_SetString. rewrite wp_bind, wp_modify, wp_bind, wp_decref, wp_ret.
    split; [len|]. intros Hx. destruct (Hclean _ _ _ Hx).
Qed.

Lemma parse_ordered_dict_spec n s :
  ~ missed s -> (length (st_input s) < n)%nat -> (length (st_input s) < b)%nat ->
  crash \/ named (st_input s) = true ->
  wp crash (parse_ordered_dict pn n) (loop_post s) s.
Proof.
  intros Hm Hn Hb Hnm. unfold parse_ordered_dict. rewrite wp_bind, wp_get, wp_bind.
  eapply wp_mono; [apply wp_crash, quiet_ordered_dict|].
  intros [r|] s1 [Hr Hq1]; [|destruct Hr; discriminate]. cbv beta.
  rewrite wp_bind. eapply wp_mono; [apply wp_crash, quiet_memo_anchor|].
  intros rc s2 [-> Hq2]. cbn [Z.eqb negb].
  pose proof (quiet_trans _ _ _ Hq1 Hq2) as Hq.
  pose proof (quiet_length _ _ Hq) as Hl.
  eapply wp_mono;
    [apply parse_ordered_dict_loop_spec; [eapply quiet_not_missed; eauto|lia|lia|safe]|].
  intros r' s3. apply loop_post_weaken. len.
Qed.

Lemma parse_sequence_spec n s :
  ~ missed s -> (length (st_input s) < n)%nat -> (length (st_input s) < b)%nat ->
  crash \/ named (st_input s) = true ->
  wp crash (parse_sequence hook pn n) (loop_post s) s.
Proof.
  intros Hm Hn Hb Hnm. unfold parse_sequence. rewrite wp_bind, wp_get.
  destruct (match tag (st_event s) with Some _ => _ | None => _ end).
  { apply parse_ordered_dict_spec; assumption. }
  rewrite wp_bind. eapply wp_mono; [apply wp_crash, quiet_PyList_New|].
  intros [r|] s1 [Hr Hq1]; [|destruct Hr; discriminate]. cbv beta.
  rewrite wp_bind. eapply wp_mono; [apply wp_crash, quiet_tag_object|].
  intros tagged s2 [Hres Hq2]. specialize (Hres Hr). cbv beta.
  rewrite wp_bind. eapply wp_mono; [apply wp_crash, quiet_memo_anchor|].
  intros rc s3 [-> Hq3]. cbn [Z.eqb negb].
  pose proof (quiet_trans _ _ _ (quiet_trans _ _ _ Hq1 Hq2) Hq3) as Hq.
  pose proof (quiet_length _ _ Hq) as Hl.
  clear Hq1 Hq2 Hq3.
  eapply wp_mono;
    [apply parse_sequence_loop_spec;
     [eapply quiet_not_missed; eauto|lia|lia|exact Hres|safe]|].
  intros r' s4. apply loop_post_weaken. len.
Qed.

Lemma parse_mapping_spec n s :
  ~ missed s -> (length (st_input s) < n)%nat -> (length (st_input s) < b)%nat ->
  crash \/ named (st_input s) = true ->
  wp crash (parse_mapping hook pn n) (loop_post s) s.
Proof.
  intros Hm Hn Hb Hnm. unfold parse_mapping. rewrite wp_bind, wp_get.
  rewrite wp_bind. eapply wp_mono; [apply wp_crash, quiet_PyDict_New|].
  intros [r|] s1 [Hr Hq1]; [|destruct Hr; discriminate]. cbv beta.
  rewrite wp_bind. eapply wp_mono; [apply wp_crash, quiet_tag_object|].
  intros tagged s2 [Hres Hq2]. specialize (Hres Hr). cbv beta.
  rewrite wp_bind. eapply wp_mono; [apply wp_crash, quiet_memo_anchor|].
  intros rc s3 [-> Hq3]. cbn [Z.eqb negb].
  pose proof (quiet_trans _ _ _ (quiet_trans _ _ _ Hq1 Hq2) Hq3) as Hq.
  pose proof (quiet_length _ _ Hq) as Hl.
  clear Hq1 Hq2 Hq3.
  eapply wp_mono;
    [apply parse_mapping_loop_spec;
     [eapply quiet_not_missed; eauto|lia|lia|exact Hres|safe]|].
  intros r' s4. apply loop_post_weaken. len.
Qed.

End Loops.

(** *** The recursive descent *)

Lemma parse_node_spec fuel : node_spec crash fuel (parse_node hook fuel).
Proof.
  induction fuel as [|n IH]; intros s Hm Hl Hnm; [lia|].
  cbn [parse_node]. rewrite wp_bind, wp_yaml_parser_parse.
  destruct (st_input s) as [|[e|] rest] eqn:Hin; cbn [negb length] in *.
  - rewrite wp_bind, wp_get. proj_simpl. cbn [plain_event type]. rewrite wp_ret.
    split; [len|split; [intros [? ?]; discriminate|intros Hx; destruct Hm; exact Hx]].
  - rewrite wp_bind, wp_get. proj_simpl.
    assert (~ missed (set_input rest e s)) as Hm1 by (intros Hx; apply Hm; exact Hx).
    destruct (type e) eqn:Ht;
      try (rewrite wp_ret;
           (split; [len|split; [intros [? ?]; discriminate
                               |intros Hx; destruct Hm; exact Hx]])).
    + eapply wp_mono.
      { apply make_alias_post. destruct Hnm as [Hc|Hnm]; [left; exact Hc|right].
        proj_simpl. eapply named_alias; eassumption. }
      intros r s1 (Hi & He & Hr). proj_simpl.
      split; [len|split; [intros _; len|]].
      intros Hx. split; [|rewrite He; exact Ht].
      destruct r; [|reflexivity]. exfalso. apply Hm1, Hr; eauto.
    + eapply wp_mono; [apply wp_crash, quiet_make_scalar|].
      intros r s1 Hq. pose proof (quiet_length _ _ Hq) as Hl1. proj_simpl.
      split; [len|split; [intros _; len|]].
      intros Hx. exfalso. eapply quiet_not_missed; eauto.
    + eapply wp_mono; [apply (parse_sequence_spec n (parse_node hook n) IH);
                        [exact Hm1|proj_simpl; lia|proj_simpl; lia|safe]|].
      intros r s1 [Hle Hmiss]. proj_simpl.
      split; [len|split; [intros _; len|exact Hmiss]].
    + eapply wp_mono; [apply (parse_mapping_spec n (parse_node hook n) IH);
                        [exact Hm1|proj_simpl; lia|proj_simpl; lia|safe]|].
      intros r s1 [Hle Hmiss]. proj_simpl.
      split; [len|split; [intros _; len|exact Hmiss]].
  - unfold PyErr_SetString. rewrite wp_bind, wp_modify, wp_ret.
    split; [len|split; [intros [? ?]; discriminate|intros Hx; destruct Hm; exact Hx]].
Qed.

End WithHook.

(** *** The drivers *)
Section Drivers.

Variable hook : string -> PyObject -> list pyval -> tag_outcome.
Variable crash : Prop.
Hypothesis Hraise : forall t i h e, hook t i h = TagRaise e -> crash.

Lemma parse_document_spec fuel s :
  ~ missed s -> (length (st_input s) <= fuel)%nat ->
  crash \/ named (st_input s) = true ->
  wp crash (parse_document hook fuel)
    (fun r s' => (length (st_input s') <= length (st_input s))%nat /\
                 (missed s' -> r = None)) s.
Proof.
  intros Hm Hl Hnm. unfold parse_document.
  rewrite wp_bind, wp_modify, wp_bind, wp_yaml_parser_parse. proj_simpl.
  destruct (st_input s) as [|[e|] rest] eqn:Hin; cbn [negb length] in *.
  - rewrite wp_bind, wp_get. proj_simpl. cbn [plain_event type].
    rewrite bool_decide_eq_false_2 by discriminate.
    unfold PyErr_SetString. rewrite wp_bind, wp_modify, wp_ret. split; [len|auto].
  - rewrite wp_bind, wp_get. proj_simpl.
    destruct (bool_decide (type e = YAML_DOCUMENT_START_EVENT)).
    2:{ unfold PyErr_SetString. rewrite wp_bind, wp_modify, wp_ret. split; [len|auto]. }
    rewrite wp_bind.
    eapply wp_mono;
      [apply (parse_node_spec hook crash Hraise);
       [intros Hx; apply Hm; exact Hx|proj_simpl; lia|safe]|].
    intros [r|] s1 Hpost; cbv beta.
    2:{ rewrite wp_ret. destruct Hpost as (Hle & _). proj_simpl. split; [len|auto]. }
    apply child_clean in Hpost as (Hm1 & Hlt & Hsh1). proj_simpl.
    rewrite wp_bind, wp_yaml_parser_parse.
    destruct (st_input s1) as [|[e1|] rest1] eqn:Hin1; cbn [negb length] in *.
    + rewrite wp_bind, wp_get. proj_simpl. cbn [plain_event type].
      rewrite bool_decide_eq_false_2 by discriminate.
      unfold PyErr_SetString. rewrite wp_bind, wp_modify, wp_bind, wp_decref, wp_ret.
      split; [len|auto].
    + rewrite wp_bind, wp_get. proj_simpl.
      destruct (bool_decide (type e1 = YAML_DOCUMENT_END_EVENT)).
      * rewrite wp_ret. split; [len|]. intros Hx. destruct Hm1. exact Hx.
      * unfold PyErr_SetString. rewrite wp_bind, wp_modify, wp_bind, wp_decref, wp_ret.
        split; [len|auto].
    + unfold PyErr_SetString. rewrite wp_bind, wp_modify, wp_bind, wp_decref, wp_ret.
      split; [len|auto].
  - unfold PyErr_SetString. rewrite wp_bind, wp_modify, wp_ret. split; [len|auto].
Qed.

Lemma parse_stream_spec fuel s :
  ~ missed s -> (length (st_input s) <= S fuel)%nat ->
  crash \/ named (st_input s) = true ->
  wp crash (parse_stream hook fuel) (fun r s' => missed s' -> r = None) s.
Proof.
  intros Hm Hl Hnm. unfold parse_stream. rewrite wp_bind, wp_yaml_parser_parse.
  destruct (st_input s) as [|[e|] rest] eqn:Hin; cbn [negb length] in *.
  - rewrite wp_bind, wp_get. proj_simpl. cbn [plain_event type].
    rewrite bool_decide_eq_false_2 by discriminate.
    unfold PyErr_SetString. rewrite wp_bind, wp_modify, wp_ret. auto.
  - rewrite wp_bind, wp_get. proj_simpl.
    destruct (bool_decide (type e = YAML_STREAM_START_EVENT)).
    2:{ unfold PyErr_SetString. rewrite wp_bind, wp_modify, wp_ret. auto. }
    rewrite wp_bind.
    eapply wp_mono;
      [apply parse_document_spec; [intros Hx; apply Hm; exact Hx|proj_simpl; lia|safe]|].
    intros [r|] s1 [Hle Hmiss]; cbv beta; [|rewrite wp_ret; auto].
    assert (~ missed s1) as Hm1 by (intros Hx; specialize (Hmiss Hx); discriminate).
    rewrite wp_bind, wp_yaml_parser_parse.
    destruct (st_input s1) as [|[e1|] rest1] eqn:Hin1; cbn [negb].
    + rewrite wp_bind, wp_get. proj_simpl. cbn [plain_event type].
      rewrite bool_decide_eq_false_2 by discriminate.
      unfold PyErr_SetString. rewrite wp_bind, wp_modify, wp_bind, wp_decref, wp_ret.
      auto.
    + rewrite wp_bind, wp_get. proj_simpl.
      destruct (bool_decide (type e1 = YAML_STREAM_END_EVENT)).
      * rewrite wp_ret. intros Hx. destruct Hm1. exact Hx.
      * unfold PyErr_SetString. rewrite wp_bind, wp_modify, wp_bind, wp_decref, wp_ret.
        auto.
    + unfold PyErr_SetString. rewrite wp_bind, wp_modify, wp_bind, wp_decref, wp_ret.
      auto.
  - unfold PyErr_SetString. rewrite wp_bind, wp_modify, wp_ret. auto.
Qed.

Lemma parse_yaml_from_spec fuel s :
  ~ missed s -> (length (st_input s) <= S fuel)%nat ->
  crash \/ named (st_input s) = true ->
  wp crash (parse_yaml_from hook fuel)
    (fun r s' => (missed s' -> r = None) /\ (r = None <-> is_Some (st_err s'))) s.
Proof.
  intros Hm Hl Hnm. unfold parse_yaml_from. rewrite wp_bind.
  eapply wp_mono; [apply parse_stream_spec; assumption|].
  intros [r|] s1 Hmiss; cbv beta; unfold PyErr_Occurred, PyErr_SetString;
    rewrite wp_bind, wp_get; destruct (st_err s1) as [err|] eqn:Herr; cbn [negb].
  - rewrite wp_bind, wp_decref, wp_ret. rewrite Herr. split; [auto|]. split; eauto.
  - rewrite wp_ret. rewrite Herr. split; [exact Hmiss|].
    split; [discriminate|intros [? ?]; discriminate].
  - rewrite wp_bind, wp_ret, wp_ret. rewrite Herr. split; [auto|]. split; eauto.
  - rewrite wp_bind, wp_modify, wp_ret. proj_simpl. split; [auto|]. split; eauto.
Qed.

End Drivers.

(** The parse as a whole: NULL is dereferenced only if the tag
    collaborator raises for some call or some alias event has no name. *)
Lemma parse_yaml_spec hook input :
  wp ((exists t i h e, hook t i h = TagRaise e) \/ named input = false)
    (fun _ => parse_yaml hook input)
    (fun r s' => (missed s' -> r = None) /\ (r = None <-> is_Some (st_err s')))
    (initial_state input).
Proof.
  apply (parse_yaml_from_spec hook _ (fun t i h e H => or_introl (ex_intro _ t
           (ex_intro _ i (ex_intro _ h (ex_intro _ e H)))))
           (S (length input)) (initial_state input)).
  - intros [name Hx]. destruct Hx.
  - cbn. lia.
  - cbn [initial_state st_input]. destruct (named input); auto.
Qed.

(** [parse_yaml] never runs out of its recursion bound. *)
Lemma parse_yaml_total hook input : parse_yaml hook input <> OutOfFuel.
Proof.
  pose proof (parse_yaml_spec hook input) as H.
  unfold wp in H. intros Heq. rewrite Heq in H. exact H.
Qed.

(** ** One document per stream *)

Lemma bind_Ret {A B} (m : M A) (k : A -> M B) s a s' :
  m s = Ret a s' -> bind m k s = k a s'.
Proof. unfold bind. intros ->. reflexivity. Qed.

Lemma yaml_parser_parse_next s e rest :
  st_input s = Produce e :: rest ->
  yaml_parser_parse s = Ret true (set_input rest e s).
Proof. unfold yaml_parser_parse. intros ->. reflexivity. Qed.

(** C3, as the code has it: when the first document of a stream has
    been built and the event after its end is the start of a second
    document, the parse fails: no value is returned and the ValueError
    "Expected stream end event" is raised (the value built for the first
    document is dropped). *)
Theorem second_document_is_rejected hook fuel s e rest r s1 e2 rest2 :
  st_input s = Produce e :: rest ->
  type e = YAML_STREAM_START_EVENT ->
  parse_document hook fuel (set_input rest e s) = Ret (Some r) s1 ->
  st_input s1 = Produce e2 :: rest2 ->
  type e2 = YAML_DOCUMENT_START_EVENT ->
  parse_yaml_from hook fuel s
  = Ret None
      (set_err (Some {| exc := PyExc_ValueError; msg := "Expected stream end event" |})
         (set_input rest2 e2 s1)).
Proof.
  intros Hin He Hdoc Hin1 He2.
  unfold parse_yaml_from, parse_stream.
  rewrite (bind_Ret _ _ s None
             (set_err (Some {| exc := PyExc_ValueError;
                               msg := "Expected stream end event" |})
                (set_input rest2 e2 s1))); [reflexivity|].
  rewrite (bind_Ret _ _ _ _ _ (yaml_parser_parse_next _ _ _ Hin)). cbn [negb].
  unfold bind at 1, get at 1. proj_simpl. rewrite He.
  rewrite bool_decide_eq_true_2 by reflexivity.
  rewrite (bind_Ret _ _ _ _ _ Hdoc).
  rewrite (bind_Ret _ _ _ _ _ (yaml_parser_parse_next _ _ _ Hin1)). cbn [negb].
  unfold bind at 1, get at 1. proj_simpl. rewrite He2.
  rewrite bool_decide_eq_false_2 by discriminate. reflexivity.
Qed.

Lemma second_document_is_rejected_witness :
  exists r s1,
    parse_document wrapping_hook 9
      (set_input (List.tl two_documents) (plain_event YAML_STREAM_START_EVENT)
         (initial_state two_documents)) = Ret (Some r) s1 /\
    parse_yaml wrapping_hook two_documents
    = Ret None
        (set_err (Some {| exc := PyExc_ValueError; msg := "Expected stream end event" |})
           (set_input [plain_scalar "2";
                       Produce (plain_event YAML_DOCUMENT_END_EVENT);
                       Produce (plain_event YAML_STREAM_END_EVENT)]
              (plain_event YAML_DOCUMENT_START_EVENT) s1)).
Proof.
  eexists _, _. split.
  - vm_compute. reflexivity.
  - unfold parse_yaml.
    eapply (second_document_is_rejected wrapping_hook _ (initial_state two_documents)
              (plain_event YAML_STREAM_START_EVENT) (List.tl two_documents)).
    + reflexivity.
    + reflexivity.
    + vm_compute. reflexivity.
    + reflexivity.
    + reflexivity.
Defined.

(** C3 fails as stated: on a stream of two well-formed documents the
    parse returns no value and raises "Expected stream end event". *)
Lemma two_documents_do_not_parse :
  match parse_yaml wrapping_hook two_documents with
  | Ret r s =>
      r = None /\
      st_err s = Some {| exc := PyExc_ValueError; msg := "Expected stream end event" |}
  | _ => False
  end.
Proof. vm_compute. split; reflexivity. Qed.

(** ** Tags and anchors at node-open time *)

Lemma nonempty_c_str t : c_str t <> "" -> negb (ch_is (at_ t 0) NUL) = true.
Proof.
  destruct t as [|c r]; cbn [c_str at_ ptr_add hd]; unfold ch_is; [congruence|].
  destruct (Ascii.eqb c NUL); [congruence|reflexivity].
Qed.

Lemma omap_test t :
  (strncmp t omap_tag 23 =? 0) = bool_decide (c_str t = omap_tag).
Proof.
  destruct (decide (c_str t = omap_tag)) as [H|H].
  - rewrite (bool_decide_eq_true_2 _ H). apply Z.eqb_eq.
    apply strncmp_c_str; [cbn; lia|reflexivity|exact H].
  - rewrite (bool_decide_eq_false_2 _ H). apply Z.eqb_neq. intros Hs. apply H.
    apply strncmp_c_str in Hs; [exact Hs|cbn; lia|reflexivity].
Qed.


Lemma memo_anchor_registers a w s :
  c_str a <> "" ->
  memo_anchor (Some a) (Some w) s = Ret 0 (registered a w s).
Proof. intros Ha. unfold memo_anchor. rewrite (nonempty_c_str _ Ha). reflexivity. Qed.

Lemma tag_object_calls hook t r s :
  c_str t <> "" ->
  tag_object hook (Some t) (Some r) s = PyObject_CallFunction_tag hook t r s.
Proof.
  intros Ht. unfold tag_object. rewrite (nonempty_c_str _ Ht).
  unfold bind. destruct (PyObject_CallFunction_tag hook t r s); reflexivity.
Qed.


Section OpenNode.

Variable hook : string -> PyObject -> list pyval -> tag_outcome.




End OpenNode.




(** [!!omap [ &m !t {a: 1} ]]: the item of the omap sequence is read
    by [parse_ordered_dict]; the tag collaborator is not called for it
    and [m] is not registered. *)
Example omap_item_is_neither_tagged_nor_registered :
  match parse_yaml wrapping_hook
          (one_document [Produce (sequence_start_event None (Some omap_tag));
                         Produce (mapping_start_event (Some "m") (Some "!t"));
                         plain_scalar "a"; plain_scalar "1";
                         Produce (plain_event YAML_MAPPING_END_EVENT);
                         Produce (plain_event YAML_SEQUENCE_END_EVENT)]) with
  | Ret r s =>
      r = Some (Py_Ref 0) /\
      deref (st_heap s) (Py_Ref 0) = Some (VOrderedDict [(Py_Ref 1, Py_Ref 2)]) /\
      st_trace s = [OpNew (Py_Ref 0)] /\
      st_anchors s !! "m" = None
  | _ => False
  end.
Proof. vm_compute. repeat split. Qed.

(** ** The ordered mapping *)

(** C1, as the code has it: a sequence-start event with the omap tag
    makes the builder construct an empty ordered mapping and register
    the anchor for it, in that order and before any entry is read; the
    tag collaborator is not called, and the anchor stands for the
    ordered mapping itself. *)
Theorem omap_is_registered_untagged hook pn n s t a :
  tag (st_event s) = Some t -> c_str t = omap_tag ->
  anchor (st_event s) = Some a -> c_str a <> "" ->
  let r := (constructed (VOrderedDict []) s).1 in
  let s' := registered a r (constructed (VOrderedDict []) s).2 in
  parse_sequence hook pn n s = parse_ordered_dict_loop pn n r s' /\
  st_trace s' = (st_trace s ++ [OpNew r; OpMemo (c_str a) r])%list /\
  st_anchors s' !! c_str a = Some r /\
  deref (st_heap s') r = Some (VOrderedDict []) /\
  st_input s' = st_input s.
Proof.
  intros Ht Hto Ha Hae r s'. split; [|split; [|split; [|split]]].
  - unfold parse_sequence, bind at 1, get at 1. rewrite Ht, omap_test.
    rewrite (bool_decide_eq_true_2 _ Hto).
    unfold parse_ordered_dict, bind at 1, get at 1. rewrite Ha.
    rewrite (bind_Ret _ _ s (Some r) (constructed (VOrderedDict []) s).2) by reflexivity.
    rewrite (bind_Ret _ _ _ _ _ (memo_anchor_registers a r _ Hae)). reflexivity.
  - subst s' r. unfold registered, constructed. cbn [fst snd]. proj_simpl.
    rewrite <- app_assoc. reflexivity.
  - cbn. apply lookup_insert_eq.
  - apply deref_alloc.
  - reflexivity.
Qed.

Lemma omap_is_registered_untagged_witness :
  let s := set_input [] (sequence_start_event (Some "a") (Some omap_tag))
             (initial_state []) in
  tag (st_event s) = Some omap_tag /\ c_str omap_tag = omap_tag /\
  anchor (st_event s) = Some "a" /\ c_str "a" <> "" /\
  st_trace (registered "a" (Py_Ref 0) (constructed (VOrderedDict []) s).2)
  = [OpNew (Py_Ref 0); OpMemo "a" (Py_Ref 0)].
Proof.
  intros s.
  split; [reflexivity|]. split; [reflexivity|].
  split; [reflexivity|]. split; [discriminate|].
  apply (omap_is_registered_untagged wrapping_hook (ret None) 1 s omap_tag "a");
    reflexivity || discriminate.
Defined.

(** C1 fails as stated: for [&a !!omap [ {k1: v1} ]] the only calls
    recorded are the construction of the ordered mapping and the
    registration of [a]; the tag collaborator, which would have wrapped
    the mapping, is never called, and the root is the bare mapping. *)
Lemma omap_tag_collaborator_is_not_called :
  match parse_yaml wrapping_hook anchored_omap with
  | Ret r s =>
      r = Some (Py_Ref 0) /\
      st_trace s = [OpNew (Py_Ref 0); OpMemo "a" (Py_Ref 0)] /\
      (forall i w, ~ In (OpTag omap_tag i w) (st_trace s)) /\
      deref (st_heap s) (Py_Ref 0) = Some (VOrderedDict [(Py_Ref 1, Py_Ref 2)])
  | _ => False
  end.
Proof.
  vm_compute. split; [reflexivity|]. split; [reflexivity|]. split; [|reflexivity].
  intros i w [H|[H|[]]]; discriminate.
Qed.

(** ** Alias lookup *)

Lemma make_alias_found s name v :
  anchor (st_event s) = Some name ->
  st_anchors s !! c_str name = Some v ->
  make_alias s = Ret (Some v) (log (OpAlias (c_str name) (Some v)) s).
Proof.
  intros Ha Hv. unfold make_alias, bind at 1, get at 1. rewrite Ha.
  unfold PyDict_GetItemString, bind, get, modify, ret. rewrite Hv. reflexivity.
Qed.

(** C5: an alias whose anchor is registered is built as the very
    pointer the anchor table holds for the name: [make_alias] returns it
    and changes nothing but the record of calls, so nothing is copied;
    and the table holds for a name the value of its latest registration. *)
Theorem alias_returns_registered_value s name v :
  anchor (st_event s) = Some name ->
  st_anchors s !! c_str name = Some v ->
  make_alias s = Ret (Some v) (log (OpAlias (c_str name) (Some v)) s) /\
  st_heap (log (OpAlias (c_str name) (Some v)) s) = st_heap s /\
  (forall a w1 w2 s0 i,
     c_str a <> "" ->
     (let! _ := memo_anchor (Some a) (Some w1) in
      let! _ := memo_anchor (Some a) (Some w2) in
      let! _ := modify (set_input i (alias_event a)) in
      make_alias) s0
     = Ret (Some w2)
         (log (OpAlias (c_str a) (Some w2))
            (set_input i (alias_event a) (registered a w2 (registered a w1 s0))))).
Proof.
  intros Ha Hv. split; [apply make_alias_found; assumption|]. split; [reflexivity|].
  intros a w1 w2 s0 i Hae.
  rewrite (bind_Ret _ _ _ _ _ (memo_anchor_registers a w1 s0 Hae)).
  rewrite (bind_Ret _ _ _ _ _ (memo_anchor_registers a w2 _ Hae)).
  unfold bind at 1, modify at 1.
  apply make_alias_found; [reflexivity|]. cbn. apply lookup_insert_eq.
Qed.

Lemma alias_returns_registered_value_witness :
  let s := set_input [] (alias_event "a")
             (registered "a" (Py_Ref 7) (initial_state [])) in
  anchor (st_event s) = Some "a" /\
  st_anchors s !! c_str "a" = Some (Py_Ref 7) /\
  make_alias s = Ret (Some (Py_Ref 7)) (log (OpAlias (c_str "a") (Some (Py_Ref 7))) s).
Proof.
  intros s. split; [reflexivity|]. split; [reflexivity|].
  apply (alias_returns_registered_value s "a" (Py_Ref 7)); reflexivity.
Defined.

(** [[ &a !t [1, 2], *a ]]: both items of the root are one pointer, the
    wrapper the tag collaborator made of the anchored sequence. *)
Example anchored_sequence_is_shared :
  match parse_yaml wrapping_hook anchored_sequence_and_alias with
  | Ret r s =>
      r = Some (Py_Ref 0) /\
      deref (st_heap s) (Py_Ref 0) = Some (VList [Py_Ref 2; Py_Ref 2]) /\
      deref (st_heap s) (Py_Ref 2) = Some (VTagged "!t" (Py_Ref 1)) /\
      deref (st_heap s) (Py_Ref 1) = Some (VList [Py_Ref 3; Py_Ref 4]) /\
      st_err s = None
  | _ => False
  end.
Proof. vm_compute. repeat split. Qed.

(** ** Duplicate keys *)




(** [{a: 1, a: 2}] parses to a mapping of one entry, [a] to [2]. *)
Example duplicate_key_mapping_parses :
  match parse_yaml wrapping_hook duplicate_key_mapping with
  | Ret r s =>
      r = Some (Py_Ref 0) /\
      deref (st_heap s) (Py_Ref 0) = Some (VDict [(Py_Ref 1, Py_Ref 4)]) /\
      deref (st_heap s) (Py_Ref 1) = Some (VUnicode (Utf8.of_ascii "a")) /\
      deref (st_heap s) (Py_Ref 4) = Some (VInt 2) /\
      st_err s = None
  | _ => False
  end.
Proof. vm_compute. repeat split. Qed.

(** * Further properties

    ** Numerals and words in the Scalar Resolver *)

Lemma read_digits_whole base ds : forall acc,
  digits_of base ds = true ->
  CPython.read_digits base ds acc = (numeral base ds acc, String.length ds, "").
Proof.
  induction ds as [|c r IH]; intros acc Hd; [reflexivity|].
  cbn [digits_of CPython.read_digits numeral String.length] in *.
  destruct (CPython.digit_value c) as [d|]; [|discriminate].
  apply andb_true_iff in Hd as [Hlt Hr]. rewrite Hlt, (IH _ Hr). reflexivity.
Qed.

Lemma digit_code c d :
  CPython.digit_value c = Some d ->
  (48 <= code c <= 57 /\ d = code c - 48) \/
  (97 <= code c <= 122 /\ d = code c - 87) \/
  (65 <= code c <= 90 /\ d = code c - 55).
Proof.
  unfold CPython.digit_value. intros H.
  repeat match type of H with
         | (if ?b then _ else _) = _ => destruct b eqn:?
         end; simplify_eq; lia.
Qed.

Lemma ch_is_code c lit : ch_is c lit = true -> code c = code lit.
Proof. unfold ch_is. intros H%Ascii.eqb_eq. congruence. Qed.

Lemma ch_is_false c lit : code c <> code lit -> ch_is c lit = false.
Proof.
  intros H. destruct (ch_is c lit) eqn:E; [|reflexivity].
  apply ch_is_code in E. contradiction.
Qed.

(** Arithmetic on character codes, the codes of literals computed. *)
Ltac code_lia :=
  repeat match goal with
         | H : (_ <? _) = true |- _ => apply Z.ltb_lt in H
         | H : ch_is _ _ = true |- _ => apply ch_is_code in H
         | H : CPython.digit_value _ = Some _ |- _ => apply digit_code in H
         end;
  repeat match goal with
         | |- context [code (Ascii ?a ?b ?c ?d ?e ?f ?g ?h)] =>
             let v := eval vm_compute in (code (Ascii a b c d e f g h)) in
             change (code (Ascii a b c d e f g h)) with v
         | H : context [code (Ascii ?a ?b ?c ?d ?e ?f ?g ?h)] |- _ =>
             let v := eval vm_compute in (code (Ascii a b c d e f g h)) in
             change (code (Ascii a b c d e f g h)) with v in H
         end;
  lia.

Lemma digit_not_space c d : CPython.digit_value c = Some d -> CPython.Py_ISSPACE c = false.
Proof. intros H%digit_code. unfold CPython.Py_ISSPACE. lia. Qed.

(** A non-empty run of digits of base 8, 10 or 16 is an integer for
    [PyLong_FromString], read to its end. *)
Lemma PyLong_FromString_digits base ds :
  base = 8 \/ base = 10 \/ base = 16 ->
  ds <> "" -> digits_of base ds = true ->
  CPython.PyLong_FromString ds base = (Some (numeral base ds 0), String.length ds).
Proof.
  intros Hb Hne Hd. destruct ds as [|c r]; [contradiction|].
  pose proof Hd as Hd0. cbn [digits_of] in Hd0.
  destruct (CPython.digit_value c) as [d|] eqn:Hc; [|discriminate].
  apply andb_true_iff in Hd0 as [Hlt Hr].
  pose proof (digit_code _ _ Hc) as Hcode.
  unfold CPython.PyLong_FromString.
  cbn [CPython.skip_space]. rewrite (digit_not_space _ _ Hc). cbn [hd tl].
  rewrite (ch_is_false c "+"), (ch_is_false c "-") by code_lia.
  assert (CPython.has_base_prefix base (String c r) = false) as ->.
  { unfold CPython.has_base_prefix, at_. cbn [hd ptr_add tl].
    destruct (ch_is c "0") eqn:E0; [|reflexivity]. cbn [andb].
    destruct r as [|c1 r1]; cbn [hd].
    - destruct Hb as [->|[->| ->]]; reflexivity.
    - cbn [digits_of] in Hr. destruct (CPython.digit_value c1) as [d1|] eqn:Hc1;
        [|discriminate].
      apply andb_true_iff in Hr as [Hlt1%Z.ltb_lt _].
      pose proof (digit_code _ _ Hc1) as Hcode1.
      destruct Hb as [->|[->| ->]]; cbn [Z.eqb Pos.eqb andb orb].
      + rewrite (ch_is_false c1 "o"), (ch_is_false c1 "O");
          [reflexivity|code_lia|code_lia].
      + reflexivity.
      + rewrite (ch_is_false c1 "x"), (ch_is_false c1 "X");
          [reflexivity|code_lia|code_lia]. }
  rewrite (read_digits_whole _ _ _ Hd). cbn [String.length CPython.skip_space hd].
  unfold ch_is. rewrite Ascii.eqb_refl. f_equal; [f_equal|]; lia.
Qed.

Lemma PyLong_FromString_signed sign ds :
  sign = "-"%char \/ sign = "+"%char ->
  ds <> "" -> digits_of 10 ds = true ->
  CPython.PyLong_FromString (String sign ds) 10
  = (Some (if Ascii.eqb sign "-" then - numeral 10 ds 0 else numeral 10 ds 0),
     S (String.length ds)).
Proof.
  intros Hs Hne Hd. destruct ds as [|c r]; [contradiction|].
  unfold CPython.PyLong_FromString.
  assert (CPython.skip_space (String sign (String c r)) = (O, String sign (String c r)))
    as -> by (destruct Hs as [-> | ->]; reflexivity).
  assert (CPython.has_base_prefix 10 (String c r) = false) as Hp.
  { unfold CPython.has_base_prefix. cbn [Z.eqb Pos.eqb andb orb].
    apply andb_false_r. }
  destruct Hs as [-> | ->]; cbn [hd tl ch_is Ascii.eqb Bool.eqb]; rewrite Hp;
    rewrite (read_digits_whole _ _ _ Hd);
    cbn [String.length CPython.skip_space hd]; unfold ch_is;
    rewrite Ascii.eqb_refl; (apply pair_equal_spec; split; [f_equal; lia|lia]).
Qed.

(** *** The paths of [_make_scalar] *)

Lemma unquoted_test s :
  quoted (style (st_event s)) = false -> value (st_event s) <> "" ->
  bool_decide (String.length (value (st_event s)) = O)
  || bool_decide (style (st_event s) = YAML_SINGLE_QUOTED_SCALAR_STYLE)
  || bool_decide (style (st_event s) = YAML_DOUBLE_QUOTED_SCALAR_STYLE) = false.
Proof.
  unfold quoted. intros Hq Hne. rewrite <- orb_assoc, Hq, orb_false_r.
  apply bool_decide_eq_false_2. destruct (value (st_event s)); [contradiction|discriminate].
Qed.

Lemma after_switch_int s k z :
  IS_DIGIT (at_ (value (st_event s)) k) || ch_is (at_ (value (st_event s)) k) "." = true ->
  CPython.PyLong_FromString (value (st_event s)) 10
  = (Some z, String.length (value (st_event s))) ->
  after_switch k s
  = Ret (Some (Py_Ref (length (st_heap s)))) (set_heap (st_heap s ++ [VInt z]) s).
Proof.
  intros Hc Hz. unfold after_switch, bind at 1, get at 1. rewrite Hc.
  unfold PyInt_FromString. rewrite Hz. unfold bind, alloc, ret. cbn [fst snd plus].
  rewrite bool_decide_eq_true_2 by reflexivity. reflexivity.
Qed.

Lemma after_switch_string s k :
  IS_DIGIT (at_ (value (st_event s)) k) || ch_is (at_ (value (st_event s)) k) "." = false ->
  after_switch k s = PyUnicode_DecodeUTF8 (value (st_event s)) s.
Proof.
  intros Hc. unfold after_switch, bind at 1, get at 1. rewrite Hc. reflexivity.
Qed.

Lemma whole_int_reads s k base z n :
  CPython.PyLong_FromString (ptr_add (value (st_event s)) k) base = (Some z, n) ->
  (k + n)%nat = String.length (value (st_event s)) ->
  whole_int k base s
  = Ret (Some (Py_Ref (length (st_heap s)))) (set_heap (st_heap s ++ [VInt z]) s).
Proof.
  intros Hz Hn. unfold whole_int, bind at 1, get at 1.
  unfold PyInt_FromString. rewrite Hz. unfold bind, alloc, ret. cbn [fst snd].
  rewrite (bool_decide_eq_true_2 _ Hn). reflexivity.
Qed.

Lemma resolve_of_int s text st z :
  _make_scalar (with_scalar text st s)
  = Ret (Some (Py_Ref (length (st_heap s))))
      (set_heap (st_heap s ++ [VInt z]) (with_scalar text st s)) ->
  resolve s text st = Some (VInt z).
Proof. unfold resolve. intros ->. apply deref_alloc. Qed.

Lemma resolve_of_string s text st :
  _make_scalar (with_scalar text st s) = PyUnicode_DecodeUTF8 text (with_scalar text st s) ->
  resolve s text st = VUnicode <$> Utf8.decode text.
Proof.
  unfold resolve. intros ->. unfold PyUnicode_DecodeUTF8.
  destruct (Utf8.decode text) as [cps|]; [|reflexivity]. apply deref_alloc.
Qed.

(** Unfolds [_make_scalar] on a scalar event of an unquoted style and a
    non-empty text: what is left is its [switch]. *)
Ltac enter_switch Hq Hne :=
  lazymatch goal with
  | |- context [_make_scalar ?S] =>
      unfold _make_scalar, bind at 1, get at 1;
      rewrite (unquoted_test S Hq Hne);
      cbn [with_scalar set_input st_event value scalar_event style]
  end.

(** X1: a run of decimal digits that does not start with 0 resolves to
    the Int it denotes, and so does any run of decimal digits behind a
    sign: after [-] or [+] a leading zero does not make the numeral
    octal. *)
Theorem decimal_numerals_are_ints s st ds :
  quoted st = false -> ds <> "" -> digits_of 10 ds = true ->
  (ch_is (hd ds) "0" = false -> resolve s ds st = Some (VInt (numeral 10 ds 0))) /\
  resolve s (String "-" ds) st = Some (VInt (- numeral 10 ds 0)) /\
  resolve s (String "+" ds) st = Some (VInt (numeral 10 ds 0)).
Proof.
  intros Hq Hne Hd.
  assert (exists c r d, ds = String c r /\ CPython.digit_value c = Some d /\ d < 10)
    as (c & r & d & -> & Hc & Hlt).
  { destruct ds as [|c r]; [contradiction|]. cbn [digits_of] in Hd.
    destruct (CPython.digit_value c) as [d|] eqn:Hc; [|discriminate].
    apply andb_true_iff in Hd as [Hlt%Z.ltb_lt _]. exists c, r, d. auto. }
  assert (IS_DIGIT c = true) as Hdig.
  { unfold IS_DIGIT. apply andb_true_iff. split; apply Z.leb_le; code_lia. }
  split; [|split].
  - intros H0. cbn [hd] in H0. apply resolve_of_int.
    enter_switch Hq Hne. unfold at_. cbn [ptr_add hd tl]. rewrite H0.
    rewrite !(ch_is_false c) by code_lia.
    apply (after_switch_int (with_scalar (String c r) st s)).
    + cbn [with_scalar set_input st_event value scalar_event at_ ptr_add hd].
      unfold at_. cbn [ptr_add hd]. rewrite Hdig. reflexivity.
    + apply PyLong_FromString_digits; auto.
  - apply resolve_of_int.
    assert (String "-" (String c r) <> "") as Hne' by discriminate.
    enter_switch Hq Hne'. unfold at_. cbn [ptr_add hd tl].
    change (ch_is "-" ".") with false. change (ch_is "-" "0") with false.
    change (ch_is "-" "-") with true. cbn iota.
    rewrite (ch_is_false c ".") by code_lia.
    apply (after_switch_int (with_scalar _ st s)).
    + cbn [with_scalar set_input st_event value scalar_event].
      unfold at_. cbn [ptr_add hd tl]. rewrite Hdig. reflexivity.
    + cbn [with_scalar set_input st_event value scalar_event].
      rewrite (PyLong_FromString_signed "-" (String c r)) by auto. reflexivity.
  - apply resolve_of_int.
    assert (String "+" (String c r) <> "") as Hne' by discriminate.
    enter_switch Hq Hne'. unfold at_. cbn [ptr_add hd tl].
    change (ch_is "+" ".") with false. change (ch_is "+" "0") with false.
    change (ch_is "+" "-") with false. change (ch_is "+" "+") with true. cbn iota.
    rewrite (ch_is_false c ".") by code_lia.
    apply (after_switch_int (with_scalar _ st s)).
    + cbn [with_scalar set_input st_event value scalar_event].
      unfold at_. cbn [ptr_add hd tl]. rewrite Hdig. reflexivity.
    + cbn [with_scalar set_input st_event value scalar_event].
      rewrite (PyLong_FromString_signed "+" (String c r)) by auto. reflexivity.
Qed.


(** X2: a 0 followed by octal digits resolves to the Int the digits
    denote in base 8, and 0x followed by hexadecimal digits to the Int
    they denote in base 16. *)
Theorem octal_and_hex_numerals_are_ints s st ds :
  quoted st = false -> ds <> "" ->
  (digits_of 8 ds = true ->
   resolve s (String "0" ds) st = Some (VInt (numeral 8 ds 0))) /\
  (digits_of 16 ds = true ->
   resolve s (String "0" (String "x" ds)) st = Some (VInt (numeral 16 ds 0))).
Proof.
  intros Hq Hne. split; intros Hd; apply resolve_of_int.
  - assert (String "0" ds <> "") as Hne' by discriminate.
    enter_switch Hq Hne'. unfold at_. cbn [ptr_add hd tl].
    change (ch_is "0" ".") with false. change (ch_is "0" "0") with true. cbn iota.
    destruct ds as [|c r]; [contradiction|]. cbn [hd].
    pose proof Hd as Hd0. cbn [digits_of] in Hd0.
    destruct (CPython.digit_value c) as [d|] eqn:Hc; [|discriminate].
    apply andb_true_iff in Hd0 as [Hlt%Z.ltb_lt _].
    pose proof (digit_code _ _ Hc) as Hcode.
    rewrite (ch_is_false c "x") by code_lia.
    replace ((code "0" <=? code c) && (code c <=? code "8")) with true
      by (symmetry; apply andb_true_iff; split; apply Z.leb_le; code_lia).
    apply (whole_int_reads (with_scalar _ st s) 1 8 _ (String.length (String c r))).
    + apply PyLong_FromString_digits; auto.
    + reflexivity.
  - assert (String "0" (String "x" ds) <> "") as Hne' by discriminate.
    enter_switch Hq Hne'. unfold at_. cbn [ptr_add hd tl].
    change (ch_is "0" ".") with false. change (ch_is "0" "0") with true.
    change (ch_is "x" "x") with true. cbn iota.
    apply (whole_int_reads (with_scalar _ st s) 2 16 _ (String.length ds)).
    + apply PyLong_FromString_digits; auto.
    + reflexivity.
Qed.

Lemma octal_and_hex_numerals_are_ints_witness :
  quoted YAML_PLAIN_SCALAR_STYLE = false /\ "755" <> "" /\
  digits_of 8 "755" = true /\
  resolve (initial_state []) "0755" YAML_PLAIN_SCALAR_STYLE = Some (VInt 493).
Proof.
  split; [reflexivity|]. split; [discriminate|]. split; [reflexivity|].
  apply (octal_and_hex_numerals_are_ints (initial_state []) YAML_PLAIN_SCALAR_STYLE "755");
    reflexivity || discriminate.
Defined.

Lemma decimal_numerals_are_ints_witness :
  quoted YAML_PLAIN_SCALAR_STYLE = false /\ "010" <> "" /\
  digits_of 10 "010" = true /\
  resolve (initial_state []) "-010" YAML_PLAIN_SCALAR_STYLE = Some (VInt (-10)).
Proof.
  split; [reflexivity|]. split; [discriminate|]. split; [reflexivity|].
  apply (decimal_numerals_are_ints (initial_state []) YAML_PLAIN_SCALAR_STYLE "010");
    reflexivity || discriminate.
Defined.

Lemma is_digit_false c lit :
  IS_DIGIT c = false -> IS_DIGIT lit = true -> ch_is c lit = false.
Proof.
  intros Hc Hl. destruct (ch_is c lit) eqn:E; [|reflexivity].
  apply Ascii.eqb_eq in E. subst c. congruence.
Qed.

(** X3: an unquoted text whose first character starts neither a number
    nor one of the literals null, true and false resolves to the String
    of its bytes: nothing else of the text is looked at, so yes, on and
    off, which YAML 1.1 reads as booleans, are Strings. *)
Theorem words_are_strings s st text :
  quoted st = false -> text <> "" -> word_start (hd text) = true ->
  resolve s text st = VUnicode <$> Utf8.decode text.
Proof.
  intros Hq Hne Hw. apply resolve_of_string.
  unfold word_start in Hw. apply negb_true_iff in Hw.
  repeat (apply orb_false_iff in Hw as [Hw ?]).
  enter_switch Hq Hne. unfold at_. cbn [ptr_add].
  rewrite (is_digit_false (hd text) "0") by auto.
  repeat match goal with H : ch_is _ _ = false |- _ => rewrite H end.
  rewrite (after_switch_string (with_scalar text st s)); [reflexivity|].
  cbn [with_scalar set_input st_event value scalar_event]. unfold at_. cbn [ptr_add].
  rewrite Hw. assumption.
Qed.

Lemma words_are_strings_witness :
  quoted YAML_PLAIN_SCALAR_STYLE = false /\ "yes" <> "" /\ word_start (hd "yes") = true /\
  resolve (initial_state []) "yes" YAML_PLAIN_SCALAR_STYLE
  = Some (VUnicode (Utf8.of_ascii "yes")).
Proof.
  split; [reflexivity|]. split; [discriminate|]. split; [reflexivity|].
  apply (words_are_strings (initial_state []) YAML_PLAIN_SCALAR_STYLE "yes");
    reflexivity || discriminate.
Defined.

(** X4: a sign that is followed by neither a digit nor a point is not a
    number: the text, the sign alone included, resolves to the String of
    its bytes. *)
Theorem bare_sign_is_string s st sign rest :
  quoted st = false -> sign = "-"%char \/ sign = "+"%char ->
  IS_DIGIT (hd rest) || ch_is (hd rest) "." = false ->
  resolve s (String sign rest) st = VUnicode <$> Utf8.decode (String sign rest).
Proof.
  intros Hq Hs Hc. apply resolve_of_string.
  assert (String sign rest <> "") as Hne by discriminate.
  pose proof Hc as Hc'. apply orb_false_iff in Hc' as [_ Hdot].
  enter_switch Hq Hne. unfold at_. cbn [ptr_add hd tl].
  destruct Hs as [-> | ->].
  - change (ch_is "-" ".") with false. change (ch_is "-" "0") with false.
    change (ch_is "-" "-") with true. cbn iota. rewrite Hdot.
    apply (after_switch_string (with_scalar _ st s)). exact Hc.
  - change (ch_is "+" ".") with false. change (ch_is "+" "0") with false.
    change (ch_is "+" "-") with false. change (ch_is "+" "+") with true.
    cbn iota. rewrite Hdot.
    apply (after_switch_string (with_scalar _ st s)). exact Hc.
Qed.

Lemma bare_sign_is_string_witness :
  quoted YAML_PLAIN_SCALAR_STYLE = false /\
  ("-"%char = "-"%char \/ "-"%char = "+"%char) /\
  IS_DIGIT (hd "") || ch_is (hd "") "." = false /\
  resolve (initial_state []) "-" YAML_PLAIN_SCALAR_STYLE = Some (VUnicode [45]).
Proof.
  split; [reflexivity|]. split; [left; reflexivity|]. split; [reflexivity|].
  apply (bare_sign_is_string (initial_state []) YAML_PLAIN_SCALAR_STYLE "-" "");
    [reflexivity|left; reflexivity|reflexivity].
Defined.






(** ** The drivers: what they require of the stream *)

(** X6: [parse_yaml] ends, and it returns NULL exactly when it leaves
    an exception raised: never a value with an exception pending, never
    NULL without one. *)
Theorem parse_yaml_value_xor_exception hook input :
  match parse_yaml hook input with
  | Ret r s => r = None <-> is_Some (st_err s)
  | Segfault _ => True
  | OutOfFuel => False
  end.
Proof.
  pose proof (parse_yaml_spec hook input) as H. unfold wp in H.
  destruct (parse_yaml hook input) as [r s| |]; [|exact I|exact H].
  apply H.
Qed.

Ltac run_driver :=
  unfold parse_yaml, parse_yaml_from, parse_stream, parse_document, bind,
    yaml_parser_parse, get, modify, ret, PyErr_SetString, PyErr_Occurred, Py_DECREF;
  cbn [initial_state st_input st_event st_heap st_err st_anchors st_trace
       set_input set_err set_anchors set_heap negb plain_event type].

(** X7: a stream that does not open with a stream-start event is
    refused before anything is built: the ValueError is "Expected stream
    start event", or "Parsing error 6" when libyaml fails on the first
    event. *)
Theorem stream_start_is_required hook input :
  match input with
  | Produce e :: _ => type e <> YAML_STREAM_START_EVENT
  | _ => True
  end ->
  exists s,
    parse_yaml hook input = Ret None s /\ st_heap s = [] /\ st_trace s = [] /\
    st_err s = Some {| exc := PyExc_ValueError;
                       msg := match input with
                              | ScanError :: _ => "Parsing error 6"
                              | _ => "Expected stream start event"
                              end |}.
Proof.
  intros H. destruct input as [|[e|] rest]; run_driver.
  - eexists. repeat split.
  - rewrite (bool_decide_eq_false_2 _ H). eexists. repeat split.
  - eexists. repeat split.
Qed.

Lemma stream_start_is_required_witness :
  exists s,
    parse_yaml wrapping_hook [plain_scalar "1"] = Ret None s /\
    st_err s = Some {| exc := PyExc_ValueError; msg := "Expected stream start event" |}.
Proof.
  destruct (stream_start_is_required wrapping_hook [plain_scalar "1"]) as (s & Hs & _ & _ & He).
  - discriminate.
  - exists s. split; [exact Hs|exact He].
Defined.

(** X8: after the stream start a document must start: any other event,
    or the end of the events, gives the ValueError "Expected document
    start event", and a failure of libyaml there "Parsing error 4";
    nothing is built. *)
Theorem document_start_is_required hook e0 rest :
  type e0 = YAML_STREAM_START_EVENT ->
  match rest with
  | Produce e :: _ => type e <> YAML_DOCUMENT_START_EVENT
  | _ => True
  end ->
  exists s,
    parse_yaml hook (Produce e0 :: rest) = Ret None s /\ st_heap s = [] /\
    st_err s = Some {| exc := PyExc_ValueError;
                       msg := match rest with
                              | ScanError :: _ => "Parsing error 4"
                              | _ => "Expected document start event"
                              end |}.
Proof.
  intros H0 H. run_driver. rewrite (bool_decide_eq_true_2 _ H0).
  destruct rest as [|[e|] rest']; run_driver.
  - eexists. repeat split.
  - rewrite (bool_decide_eq_false_2 _ H). eexists. repeat split.
  - eexists. repeat split.
Qed.

Lemma document_start_is_required_witness :
  exists s,
    parse_yaml wrapping_hook
      [Produce (plain_event YAML_STREAM_START_EVENT);
       Produce (plain_event YAML_STREAM_END_EVENT)] = Ret None s /\
    st_err s = Some {| exc := PyExc_ValueError; msg := "Expected document start event" |}.
Proof.
  destruct (document_start_is_required wrapping_hook
              (plain_event YAML_STREAM_START_EVENT)
              [Produce (plain_event YAML_STREAM_END_EVENT)]) as (s & Hs & _ & He).
  - reflexivity.
  - discriminate.
  - exists s. split; [exact Hs|exact He].
Defined.

(** X9: once the root node of a document is built, [parse_document]
    returns it if the next event is the document end and fails
    otherwise: with "Expected document end event" for any other event or
    none, with "Parsing error 5" when libyaml fails.  The anchor table the
    root is built with is empty at first. *)
Theorem document_end_is_required hook fuel s e1 rest r s3 :
  st_input s = Produce e1 :: rest ->
  type e1 = YAML_DOCUMENT_START_EVENT ->
  parse_node hook fuel (set_input rest e1 (set_anchors ∅ s)) = Ret (Some r) s3 ->
  parse_document hook fuel s
  = match st_input s3 with
    | Produce e2 :: rest3 =>
        if bool_decide (type e2 = YAML_DOCUMENT_END_EVENT)
        then Ret (Some r) (set_input rest3 e2 s3)
        else Ret None
               (set_err (Some {| exc := PyExc_ValueError;
                                 msg := "Expected document end event" |})
                  (set_input rest3 e2 s3))
    | [] =>
        Ret None
          (set_err (Some {| exc := PyExc_ValueError;
                            msg := "Expected document end event" |})
             (set_input [] (plain_event YAML_NO_EVENT) s3))
    | ScanError :: _ =>
        Ret None
          (set_err (Some {| exc := PyExc_ValueError; msg := "Parsing error 5" |})
             (set_input [] (plain_event YAML_NO_EVENT) s3))
    end.
Proof.
  intros Hin H1 Hnode. unfold parse_document.
  unfold bind at 1 2, modify at 1, yaml_parser_parse at 1. proj_simpl. rewrite Hin.
  cbn [negb]. unfold bind at 1, get at 1. proj_simpl.
  rewrite (bool_decide_eq_true_2 _ H1).
  rewrite (bind_Ret _ _ _ _ _ Hnode).
  unfold bind at 1, yaml_parser_parse at 1.
  destruct (st_input s3) as [|[e2|] rest3]; cbn [negb]; try reflexivity.
  unfold bind at 1, get at 1. proj_simpl.
  destruct (bool_decide (type e2 = YAML_DOCUMENT_END_EVENT)); reflexivity.
Qed.

Lemma document_end_is_required_witness :
  let doc := [Produce (plain_event YAML_DOCUMENT_START_EVENT);
              plain_scalar "7";
              Produce (plain_event YAML_DOCUMENT_END_EVENT)] in
  exists s3,
    parse_node wrapping_hook 3
      (set_input (List.tl doc) (plain_event YAML_DOCUMENT_START_EVENT)
         (set_anchors ∅ (initial_state doc)))
    = Ret (Some (Py_Ref 0)) s3 /\
    parse_document wrapping_hook 3 (initial_state doc)
    = Ret (Some (Py_Ref 0)) (set_input [] (plain_event YAML_DOCUMENT_END_EVENT) s3).
Proof.
  intros doc. eexists. split.
  - vm_compute. reflexivity.
  - etransitivity.
    + eapply (document_end_is_required wrapping_hook 3 (initial_state doc)
                (plain_event YAML_DOCUMENT_START_EVENT) (List.tl doc)).
      * reflexivity.
      * reflexivity.
      * vm_compute. reflexivity.
    + reflexivity.
Defined.

(** X10: when the document is built and the stream ends after it,
    [parse_yaml] returns the root of the document, unless an exception is
    still pending from the building of a node: then it returns NULL with
    that exception. *)
Theorem root_is_returned hook fuel s e0 rest r s1 e3 rest3 :
  st_input s = Produce e0 :: rest ->
  type e0 = YAML_STREAM_START_EVENT ->
  parse_document hook fuel (set_input rest e0 s) = Ret (Some r) s1 ->
  st_input s1 = Produce e3 :: rest3 ->
  type e3 = YAML_STREAM_END_EVENT ->
  parse_yaml_from hook fuel s
  = Ret (match st_err s1 with Some _ => None | None => Some r end)
      (set_input rest3 e3 s1).
Proof.
  intros Hin H0 Hdoc Hin1 H3. unfold parse_yaml_from, parse_stream.
  rewrite (bind_Ret _ _ s (Some r) (set_input rest3 e3 s1)).
  - unfold bind, PyErr_Occurred, get, Py_DECREF, ret. proj_simpl.
    destruct (st_err s1); reflexivity.
  - rewrite (bind_Ret _ _ _ _ _ (yaml_parser_parse_next _ _ _ Hin)). cbn [negb].
    unfold bind at 1, get at 1. proj_simpl. rewrite (bool_decide_eq_true_2 _ H0).
    rewrite (bind_Ret _ _ _ _ _ Hdoc).
    rewrite (bind_Ret _ _ _ _ _ (yaml_parser_parse_next _ _ _ Hin1)). cbn [negb].
    unfold bind at 1, get at 1. proj_simpl. rewrite (bool_decide_eq_true_2 _ H3).
    reflexivity.
Qed.

Lemma root_is_returned_witness :
  exists s1 s',
    parse_document wrapping_hook 6
      (set_input (List.tl (one_document [plain_scalar "1e999"]))
         (plain_event YAML_STREAM_START_EVENT)
         (initial_state (one_document [plain_scalar "1e999"])))
    = Ret (Some (Py_Ref 0)) s1 /\
    parse_yaml wrapping_hook (one_document [plain_scalar "1e999"]) = Ret None s' /\
    st_err s' = Some {| exc := PyExc_OverflowError;
                        msg := "value too large to convert to float" |}.
Proof.
  eexists _, _. split; [vm_compute; reflexivity|]. split.
  - unfold parse_yaml. etransitivity.
    + eapply (root_is_returned wrapping_hook _
                (initial_state (one_document [plain_scalar "1e999"]))
                (plain_event YAML_STREAM_START_EVENT)
                (List.tl (one_document [plain_scalar "1e999"]))).
      * reflexivity.
      * reflexivity.
      * vm_compute. reflexivity.
      * reflexivity.
      * reflexivity.
    + reflexivity.
  - reflexivity.
Defined.

(** ** Nodes *)

Lemma empty_c_str t : c_str t = "" -> negb (ch_is (at_ t 0) NUL) = false.
Proof.
  destruct t as [|c r]; cbn [c_str at_ ptr_add hd]; unfold ch_is; [reflexivity|].
  destruct (Ascii.eqb c NUL); [reflexivity|discriminate].
Qed.

Lemma tag_object_absent hook t i s : absent t -> tag_object hook t i s = Ret i s.
Proof.
  unfold tag_object, absent. intros Ht. destruct i as [i|], t as [t|]; try reflexivity.
  rewrite (empty_c_str _ Ht). reflexivity.
Qed.

Lemma memo_anchor_absent a o s : absent a \/ o = None -> memo_anchor a o s = Ret 0 s.
Proof.
  unfold memo_anchor, absent. intros H. destruct a as [a|], o as [o|]; try reflexivity.
  destruct H as [H|H]; [|discriminate]. rewrite (empty_c_str _ H). reflexivity.
Qed.

Lemma omap_test_absent t : absent t ->
  match t with Some t => strncmp t omap_tag 23 =? 0 | None => false end = false.
Proof.
  destruct t as [t|]; [|reflexivity]. cbn [absent]. intros Ht. rewrite omap_test.
  apply bool_decide_eq_false_2. rewrite Ht. discriminate.
Qed.

(** [parse_node] on an event that starts no node, or without an event:
    NULL, and no exception. *)
Lemma parse_node_no_node hook fuel s :
  match st_input s with
  | Produce e :: rest =>
      is_node_start (type e) = false ->
      parse_node hook (S fuel) s = Ret None (set_input rest e s)
  | [] => parse_node hook (S fuel) s = Ret None (set_input [] (plain_event YAML_NO_EVENT) s)
  | ScanError :: _ =>
      parse_node hook (S fuel) s
      = Ret None
          (set_err (Some {| exc := PyExc_ValueError; msg := "Parsing error 3" |})
             (set_input [] (plain_event YAML_NO_EVENT) s))
  end.
Proof.
  destruct (st_input s) as [|[e|] rest] eqn:Hin; [|intros He|];
    cbn [parse_node]; unfold bind, yaml_parser_parse, get; rewrite Hin;
    try reflexivity.
  cbv beta iota delta [negb st_event set_input].
  destruct (type e); try discriminate; reflexivity.
Qed.

(** X11: a node that has neither tag nor anchor (NULL or empty) goes to
    neither collaborator: a scalar is exactly what [_make_scalar]
    builds, a sequence and a mapping enter their loop with the new empty
    container, and the tag hook is not consulted. *)
Theorem plain_nodes_skip_hook_and_table hook s :
  absent (tag (st_event s)) -> absent (anchor (st_event s)) ->
  make_scalar hook s = _make_scalar s /\
  (forall pn n,
     parse_sequence hook pn n s
     = parse_sequence_loop pn n (Some (constructed (VList []) s).1)
         (constructed (VList []) s).2) /\
  (forall pn n,
     parse_mapping hook pn n s
     = parse_mapping_loop pn n (Some (constructed (VDict []) s).1)
         (constructed (VDict []) s).2).
Proof.
  intros Ht Ha. split; [|split].
  - pose proof (frame__make_scalar s) as Hf. unfold wp in Hf.
    unfold make_scalar, bind at 1, get at 1. unfold bind at 1.
    destruct (_make_scalar s) as [r s1| |]; try contradiction.
    unfold bind. rewrite tag_object_absent by assumption.
    rewrite memo_anchor_absent by auto. reflexivity.
  - intros pn n. unfold parse_sequence, bind at 1, get at 1.
    rewrite (omap_test_absent _ Ht).
    rewrite (bind_Ret _ _ s (Some (constructed (VList []) s).1) (constructed (VList []) s).2)
      by reflexivity.
    unfold bind. rewrite tag_object_absent by assumption.
    rewrite memo_anchor_absent by auto. reflexivity.
  - intros pn n. unfold parse_mapping, bind at 1, get at 1.
    rewrite (bind_Ret _ _ s (Some (constructed (VDict []) s).1) (constructed (VDict []) s).2)
      by reflexivity.
    unfold bind. rewrite tag_object_absent by assumption.
    rewrite memo_anchor_absent by auto. reflexivity.
Qed.

Lemma plain_nodes_skip_hook_and_table_witness :
  let s := with_scalar "12" YAML_PLAIN_SCALAR_STYLE (initial_state []) in
  absent (tag (st_event s)) /\ absent (anchor (st_event s)) /\
  make_scalar wrapping_hook s = _make_scalar s.
Proof.
  intros s. split; [exact I|]. split; [exact I|].
  apply (plain_nodes_skip_hook_and_table wrapping_hook s); exact I.
Defined.

(** X12: where a child is expected, an event that starts no node ends
    the loop of a container: a sequence is returned at its
    sequence-end event and a mapping at its mapping-end event, and any
    other such event there, or the want of one, raises "Expected sequence
    end event" or "Expected mapping end event". *)
Theorem container_end_is_required hook k n d s e rest :
  st_input s = Produce e :: rest ->
  is_node_start (type e) = false ->
  parse_sequence_loop (parse_node hook (S k)) (S n) (Some d) s
  = (if bool_decide (type e = YAML_SEQUENCE_END_EVENT)
     then Ret (Some d) (set_input rest e s)
     else Ret None
            (set_err (Some {| exc := PyExc_ValueError;
                              msg := "Expected sequence end event" |})
               (set_input rest e s))) /\
  parse_mapping_loop (parse_node hook (S k)) (S n) (Some d) s
  = (if bool_decide (type e = YAML_MAPPING_END_EVENT)
     then Ret (Some d) (set_input rest e s)
     else Ret None
            (set_err (Some {| exc := PyExc_ValueError;
                              msg := "Expected mapping end event" |})
               (set_input rest e s))).
Proof.
  intros Hin He. pose proof (parse_node_no_node hook k s) as Hn. rewrite Hin in Hn.
  specialize (Hn He). split.
  - cbn [parse_sequence_loop]. rewrite (bind_Ret _ _ _ _ _ Hn).
    unfold bind at 1, get at 1. proj_simpl.
    destruct (bool_decide (type e = YAML_SEQUENCE_END_EVENT)); reflexivity.
  - cbn [parse_mapping_loop]. rewrite (bind_Ret _ _ _ _ _ Hn).
    unfold bind at 1, get at 1. proj_simpl.
    destruct (bool_decide (type e = YAML_MAPPING_END_EVENT)); reflexivity.
Qed.

Lemma container_end_is_required_witness :
  let s := initial_state [Produce (plain_event YAML_DOCUMENT_END_EVENT)] in
  st_input s = [Produce (plain_event YAML_DOCUMENT_END_EVENT)] /\
  is_node_start (type (plain_event YAML_DOCUMENT_END_EVENT)) = false /\
  parse_sequence_loop (parse_node wrapping_hook 1) 1 (Some (Py_Ref 0)) s
  = Ret None
      (set_err (Some {| exc := PyExc_ValueError; msg := "Expected sequence end event" |})
         (set_input [] (plain_event YAML_DOCUMENT_END_EVENT) s)).
Proof.
  intros s. split; [reflexivity|]. split; [reflexivity|].
  apply (container_end_is_required wrapping_hook 0 0 (Py_Ref 0) s
           (plain_event YAML_DOCUMENT_END_EVENT) []); reflexivity.
Defined.

(** X13: a sequence start and a mapping start without tag and anchor
    that are followed at once by their end event give a new, empty list
    and a new, empty dictionary, two events being read. *)
Theorem empty_containers hook fuel s e e' rest :
  st_input s = Produce e :: Produce e' :: rest ->
  absent (tag e) -> absent (anchor e) ->
  let s1 := set_input (Produce e' :: rest) e s in
  (type e = YAML_SEQUENCE_START_EVENT -> type e' = YAML_SEQUENCE_END_EVENT ->
   parse_node hook (S (S fuel)) s
   = Ret (Some (constructed (VList []) s1).1)
       (set_input rest e' (constructed (VList []) s1).2)) /\
  (type e = YAML_MAPPING_START_EVENT -> type e' = YAML_MAPPING_END_EVENT ->
   parse_node hook (S (S fuel)) s
   = Ret (Some (constructed (VDict []) s1).1)
       (set_input rest e' (constructed (VDict []) s1).2)).
Proof.
  intros Hin Ht Ha s1.
  assert (parse_node hook (S (S fuel)) s
          = match type e with
            | YAML_ALIAS_EVENT => make_alias
            | YAML_SCALAR_EVENT => make_scalar hook
            | YAML_SEQUENCE_START_EVENT =>
                parse_sequence hook (parse_node hook (S fuel)) (S fuel)
            | YAML_MAPPING_START_EVENT =>
                parse_mapping hook (parse_node hook (S fuel)) (S fuel)
            | _ => ret None
            end s1) as Hrun.
  { change (parse_node hook (S (S fuel)))
      with (let! ok := yaml_parser_parse in
            if negb ok then
              let! _ := PyErr_SetString PyExc_ValueError "Parsing error 3" in ret None
            else
              let! event := get st_event in
              match type event with
              | YAML_ALIAS_EVENT => make_alias
              | YAML_SCALAR_EVENT => make_scalar hook
              | YAML_SEQUENCE_START_EVENT =>
                  parse_sequence hook (parse_node hook (S fuel)) (S fuel)
              | YAML_MAPPING_START_EVENT =>
                  parse_mapping hook (parse_node hook (S fuel)) (S fuel)
              | _ => ret None
              end).
    rewrite (bind_Ret _ _ _ _ _ (yaml_parser_parse_next _ _ _ Hin)). reflexivity. }
  rewrite Hrun. subst s1.
  pose proof (plain_nodes_skip_hook_and_table hook
                (set_input (Produce e' :: rest) e s) Ht Ha) as (_ & Hseq & Hmap).
  split; intros He He'; rewrite He.
  - rewrite Hseq. etransitivity.
    + apply (container_end_is_required hook fuel fuel _ _ e' rest);
        [reflexivity|rewrite He'; reflexivity].
    + rewrite (bool_decide_eq_true_2 _ He'). reflexivity.
  - rewrite Hmap. etransitivity.
    + apply (container_end_is_required hook fuel fuel _ _ e' rest);
        [reflexivity|rewrite He'; reflexivity].
    + rewrite (bool_decide_eq_true_2 _ He'). reflexivity.
Qed.

Lemma empty_containers_witness :
  let s := initial_state [Produce (mapping_start_event None None);
                          Produce (plain_event YAML_MAPPING_END_EVENT)] in
  absent (tag (mapping_start_event None None)) /\
  absent (anchor (mapping_start_event None None)) /\
  exists s', parse_node wrapping_hook 2 s = Ret (Some (Py_Ref 0)) s' /\
             st_heap s' = [VDict []] /\ st_input s' = [].
Proof.
  intros s. split; [exact I|]. split; [exact I|]. eexists. split.
  - apply (empty_containers wrapping_hook 0 s (mapping_start_event None None)
             (plain_event YAML_MAPPING_END_EVENT) []); reflexivity || exact I.
  - split; reflexivity.
Defined.

(** ** Children of containers *)

(** One turn of the loop of [parse_sequence]: the child is appended at
    the end of the list the loop works on, through the wrapper when the
    list was tagged. *)
Lemma sequence_child_appended pn n d a items s sub s1 :
  pn s = Ret (Some sub) s1 ->
  container_of (st_heap s1) d = Some (a, VList items) ->
  parse_sequence_loop pn (S n) (Some d) s
  = parse_sequence_loop pn n (Some d)
      (set_heap (<[a := VList (items ++ [sub])]> (st_heap s1)) s1).
Proof.
  intros Hsub Hd. cbn [parse_sequence_loop]. rewrite (bind_Ret _ _ _ _ _ Hsub).
  rewrite (bind_Ret _ _ s1 (Some Py_None)
             (set_heap (<[a := VList (items ++ [sub])]> (st_heap s1)) s1)).
  - reflexivity.
  - unfold PyObject_CallMethod_append, bind at 1, get at 1. rewrite Hd. reflexivity.
Qed.





(** X15: a key that is not hashable (a sequence or a mapping, tagged or
    not) makes the mapping fail: [parse_mapping] returns NULL with the
    TypeError of the assignment, and nothing is inserted. *)
Theorem unhashable_key_fails pn n d a es s k s1 v s2 :
  pn s = Ret (Some k) s1 ->
  pn s1 = Ret (Some v) s2 ->
  container_of (st_heap s2) d = Some (a, VDict es) ->
  hashable (st_heap s2) k = false ->
  parse_mapping_loop pn (S n) (Some d) s
  = Ret None
      (set_err (Some {| exc := PyExc_TypeError; msg := "unhashable type" |}) s2).
Proof.
  intros Hk Hv Hd Hh. cbn [parse_mapping_loop].
  rewrite (bind_Ret _ _ _ _ _ Hk), (bind_Ret _ _ _ _ _ Hv).
  rewrite (bind_Ret _ _ s2 (-1)
             (set_err (Some {| exc := PyExc_TypeError; msg := "unhashable type" |}) s2)).
  - reflexivity.
  - unfold PyObject_SetItem, bind at 1, get at 1. rewrite Hd, Hh. reflexivity.
Qed.

Lemma unhashable_key_fails_witness :
  let s := set_heap [VDict []]
             (initial_state [Produce (sequence_start_event None None);
                             Produce (plain_event YAML_SEQUENCE_END_EVENT);
                             plain_scalar "1"]) in
  exists s2,
    parse_mapping_loop (parse_node wrapping_hook 2) 1 (Some (Py_Ref 0)) s
    = Ret None
        (set_err (Some {| exc := PyExc_TypeError; msg := "unhashable type" |}) s2) /\
    deref (st_heap s2) (Py_Ref 0) = Some (VDict []).
Proof.
  intros s. eexists. split.
  - eapply (unhashable_key_fails (parse_node wrapping_hook 2) 0 (Py_Ref 0) 0%nat [] s).
    + vm_compute. reflexivity.
    + vm_compute. reflexivity.
    + reflexivity.
    + reflexivity.
  - reflexivity.
Defined.

Lemma container_of_append h d a items items' :
  container_of h d = Some (a, VList items) ->
  container_of (<[a := VList items']> h) d = Some (a, VList items').
Proof.
  destruct d as [| | |w]; cbn [container_of]; try discriminate.
  destruct (h !! w) as [v|] eqn:Hw; [|discriminate].
  assert (forall x, h !! x = Some (VList items) ->
                    <[x := VList items']> h !! x = Some (VList items')) as Hset.
  { intros x Hx. apply list_lookup_insert_eq. eapply lookup_lt_Some, Hx. }
  destruct v as [| | | | | | | |t [| | |b]]; intros Hc; simplify_eq.
  1: rewrite (Hset _ Hw); reflexivity.
  destruct (h !! b) as [vb|] eqn:Hb; cbn [option_map] in Hc; simplify_eq.
  rewrite list_lookup_insert_ne by (intros ->; congruence).
  rewrite Hw, (Hset _ Hb). reflexivity.
Qed.

Lemma container_of_lookup h d a v : container_of h d = Some (a, v) -> h !! a = Some v.
Proof.
  destruct d as [| | |w]; cbn [container_of]; try discriminate.
  destruct (h !! w) as [x|] eqn:Hw; [|discriminate].
  destruct x as [| | | | | | | |t [| | |b]]; intros Hc; simplify_eq; try assumption.
  destruct (h !! b) as [vb|] eqn:Hb; cbn [option_map] in Hc; simplify_eq. exact Hb.
Qed.

Lemma parse_node_literal hook k s v rest :
  st_input s = Produce (literal_event v) :: rest ->
  parse_node hook (S k) s = Ret (Some (Py_literal v)) (set_input rest (literal_event v) s).
Proof.
  intros Hin. cbn [parse_node].
  rewrite (bind_Ret _ _ _ _ _ (yaml_parser_parse_next _ _ _ Hin)).
  destruct v as [[|]|]; reflexivity.
Qed.

(** X16: the items of a sequence are in the order of their events.  With
    the literals null, true and false for the items, which allocate
    nothing: the loop of [parse_sequence] puts them, in their order,
    behind the items the list has, reads the sequence-end event and
    returns the pointer it was given, wrapper or list; nothing else of
    the state changes. *)
Theorem sequence_keeps_order hook k vs : forall n s d a items rest,
  st_input s
  = (map (fun v => Produce (literal_event v)) vs
     ++ Produce (plain_event YAML_SEQUENCE_END_EVENT) :: rest)%list ->
  container_of (st_heap s) d = Some (a, VList items) ->
  parse_sequence_loop (parse_node hook (S k)) (S (length vs + n)) (Some d) s
  = Ret (Some d)
      (set_heap (<[a := VList (items ++ map Py_literal vs)]> (st_heap s))
         (set_input rest (plain_event YAML_SEQUENCE_END_EVENT) s)).
Proof.
  induction vs as [|v vs IH]; intros n s d a items rest Hin Hd.
  - cbn [map app length Nat.add] in *. cbn [parse_sequence_loop].
    pose proof (parse_node_no_node hook k s) as Hn. rewrite Hin in Hn.
    rewrite (bind_Ret _ _ _ _ _ (Hn eq_refl)).
    rewrite app_nil_r, (list_insert_id _ _ _ (container_of_lookup _ _ _ _ Hd)).
    reflexivity.
  - cbn [map app length Nat.add] in *.
    rewrite (sequence_child_appended _ _ _ _ _ _ _ _
               (parse_node_literal hook k s v _ Hin) Hd).
    rewrite (IH n _ d a (items ++ [Py_literal v])%list rest).
    + cbn [set_heap set_input st_heap st_input st_event st_anchors st_err st_trace].
      rewrite list_insert_insert_eq, <- app_assoc. reflexivity.
    + reflexivity.
    + apply container_of_append with (items := items). exact Hd.
Qed.

Lemma sequence_keeps_order_witness :
  let s := set_heap [VTagged "!t" (Py_Ref 1); VList [Py_Ref 2]; VInt 7]
             (initial_state [Produce (literal_event (Some true));
                             Produce (literal_event None);
                             Produce (plain_event YAML_SEQUENCE_END_EVENT);
                             Produce (plain_event YAML_DOCUMENT_END_EVENT)]) in
  parse_sequence_loop (parse_node wrapping_hook 1) 3 (Some (Py_Ref 0)) s
  = Ret (Some (Py_Ref 0))
      (set_heap [VTagged "!t" (Py_Ref 1); VList [Py_Ref 2; Py_True; Py_None]; VInt 7]
         (set_input [Produce (plain_event YAML_DOCUMENT_END_EVENT)]
            (plain_event YAML_SEQUENCE_END_EVENT) s)).
Proof.
  intros s.
  apply (sequence_keeps_order wrapping_hook 0 [Some true; None] 0 s (Py_Ref 0) 1%nat
           [Py_Ref 2] [Produce (plain_event YAML_DOCUMENT_END_EVENT)]); reflexivity.
Defined.

(** ** Aliases inside containers *)

Lemma parse_node_undefined_alias hook k s e rest name :
  st_input s = Produce e :: rest ->
  type e = YAML_ALIAS_EVENT ->
  anchor e = Some name ->
  st_anchors s !! c_str name = None ->
  parse_node hook (S k) s
  = Ret None (log (OpAlias (c_str name) None) (set_input rest e s)).
Proof.
  intros Hin Ht Ha Hu. cbn [parse_node].
  rewrite (bind_Ret _ _ _ _ _ (yaml_parser_parse_next _ _ _ Hin)). cbn [negb].
  unfold bind at 1, get at 1. proj_simpl. rewrite Ht.
  unfold make_alias, bind at 1, get at 1. proj_simpl. rewrite Ha.
  unfold PyDict_GetItemString, bind, get, modify, ret. proj_simpl. rewrite Hu.
  reflexivity.
Qed.

(** ** Aliases that are not defined *)



(** [{1e999: *zq}]: the key leaves an OverflowError pending, the
    mapping raises nothing for the undefined value, and the parse ends
    with that OverflowError. *)
Example pending_exception_outlives_undefined_alias :
  match parse_yaml wrapping_hook
          (one_document [Produce (mapping_start_event None None);
                         plain_scalar "1e999";
                         Produce (alias_event "zq");
                         Produce (plain_event YAML_MAPPING_END_EVENT)]) with
  | Ret r s =>
      In (OpAlias "zq" None) (st_trace s) /\ r = None /\
      st_err s = Some {| exc := PyExc_OverflowError;
                         msg := "value too large to convert to float" |}
  | _ => False
  end.
Proof. vm_compute. repeat split. right. left. reflexivity. Qed.

(** [!t [*zq]] with a tag collaborator that raises: the sequence goes on
    with a NULL result, the alias goes undefined, and [Py_DECREF] is
    applied to NULL. *)
Example undefined_alias_after_raising_hook :
  match parse_yaml raising_hook
          (one_document [Produce (sequence_start_event None (Some "!t"));
                         Produce (alias_event "zq");
                         Produce (plain_event YAML_SEQUENCE_END_EVENT)]) with
  | Segfault s => In (OpAlias "zq" None) (st_trace s)
  | _ => False
  end.
Proof. vm_compute. auto. Qed.


(** X17: an alias to a name that is not registered is not reported as
    such inside a container.  Where an item of a sequence or a key of a
    mapping is expected, the failure is taken for the end of the
    container and the ValueError is "Expected sequence end event" or
    "Expected mapping end event"; where the value of a key is expected,
    the mapping returns NULL and raises nothing. *)
Theorem undefined_alias_in_container hook k n d s e rest name :
  st_input s = Produce e :: rest ->
  type e = YAML_ALIAS_EVENT ->
  anchor e = Some name ->
  st_anchors s !! c_str name = None ->
  let s1 := log (OpAlias (c_str name) None) (set_input rest e s) in
  parse_sequence_loop (parse_node hook (S k)) (S n) (Some d) s
  = Ret None (set_err (value_error "Expected sequence end event") s1) /\
  parse_mapping_loop (parse_node hook (S k)) (S n) (Some d) s
  = Ret None (set_err (value_error "Expected mapping end event") s1) /\
  (forall s0 key,
     parse_node hook (S k) s0 = Ret (Some key) s ->
     parse_mapping_loop (parse_node hook (S k)) (S n) (Some d) s0 = Ret None s1).
Proof.
  intros Hin Ht Ha Hu s1.
  pose proof (parse_node_undefined_alias hook k s e rest name Hin Ht Ha Hu) as Hn.
  split; [|split].
  - cbn [parse_sequence_loop]. rewrite (bind_Ret _ _ _ _ _ Hn).
    unfold bind at 1, get at 1. proj_simpl. rewrite Ht. reflexivity.
  - cbn [parse_mapping_loop]. rewrite (bind_Ret _ _ _ _ _ Hn).
    unfold bind at 1, get at 1. proj_simpl. rewrite Ht. reflexivity.
  - intros s0 key Hk. cbn [parse_mapping_loop].
    rewrite (bind_Ret _ _ _ _ _ Hk), (bind_Ret _ _ _ _ _ Hn). reflexivity.
Qed.

Lemma undefined_alias_in_container_witness :
  let s := initial_state [Produce (alias_event "zq")] in
  parse_sequence_loop (parse_node wrapping_hook 1) 1 (Some (Py_Ref 0)) s
  = Ret None
      (set_err (value_error "Expected sequence end event")
         (log (OpAlias "zq" None) (set_input [] (alias_event "zq") s))).
Proof.
  intros s.
  apply (undefined_alias_in_container wrapping_hook 0 0 (Py_Ref 0) s (alias_event "zq")
           [] "zq"); reflexivity.
Defined.

(** ** The entries of an ordered mapping *)

(** X18: in a sequence with the omap tag every item must be a mapping
    that is not empty.  At the sequence-end event the ordered mapping is
    returned; any other event that is not a mapping start, or the want of
    one, raises "Expected mapping start or sequence end event"; and a
    mapping start that is followed by no node, as for the empty mapping,
    makes the parse return NULL without raising anything. *)
Theorem omap_item_must_be_a_pair hook k n r s e rest :
  st_input s = Produce e :: rest ->
  (type e <> YAML_MAPPING_START_EVENT ->
   parse_ordered_dict_loop (parse_node hook (S k)) (S n) r s
   = if bool_decide (type e = YAML_SEQUENCE_END_EVENT)
     then Ret (Some r) (set_input rest e s)
     else Ret None
            (set_err (value_error "Expected mapping start or sequence end event")
               (set_input rest e s))) /\
  (forall e' rest',
     type e = YAML_MAPPING_START_EVENT ->
     rest = Produce e' :: rest' ->
     is_node_start (type e') = false ->
     parse_ordered_dict_loop (parse_node hook (S k)) (S n) r s
     = Ret None (set_input rest' e' s)).
Proof.
  intros Hin. split.
  - intros Hne. cbn [parse_ordered_dict_loop].
    rewrite (bind_Ret _ _ _ _ _ (yaml_parser_parse_next _ _ _ Hin)). cbn [negb].
    unfold bind at 1, get at 1. proj_simpl.
    rewrite (bool_decide_eq_false_2 _ Hne). case_bool_decide; reflexivity.
  - intros e' rest' He -> He'. cbn [parse_ordered_dict_loop].
    rewrite (bind_Ret _ _ _ _ _ (yaml_parser_parse_next _ _ _ Hin)). cbn [negb].
    unfold bind at 1, get at 1. proj_simpl.
    rewrite He. rewrite bool_decide_eq_false_2 by discriminate.
    rewrite (bool_decide_eq_true_2 _ (eq_refl YAML_MAPPING_START_EVENT)). cbn [negb].
    pose proof (parse_node_no_node hook k (set_input (Produce e' :: rest') e s)) as Hn.
    cbn [st_input set_input] in Hn.
    rewrite (bind_Ret _ _ _ _ _ (Hn He')). reflexivity.
Qed.

Lemma omap_item_must_be_a_pair_witness :
  let s := set_heap [VOrderedDict []]
             (initial_state [Produce (mapping_start_event None None);
                             Produce (plain_event YAML_MAPPING_END_EVENT);
                             Produce (plain_event YAML_SEQUENCE_END_EVENT)]) in
  parse_ordered_dict_loop (parse_node wrapping_hook 1) 1 (Py_Ref 0) s
  = Ret None
      (set_input [Produce (plain_event YAML_SEQUENCE_END_EVENT)]
         (plain_event YAML_MAPPING_END_EVENT) s).
Proof.
  intros s.
  apply (proj2 (omap_item_must_be_a_pair wrapping_hook 0 0 (Py_Ref 0) s
                  (mapping_start_event None None) _ eq_refl)
           (plain_event YAML_MAPPING_END_EVENT)
           [Produce (plain_event YAML_SEQUENCE_END_EVENT)]); reflexivity.
Defined.

(** X19: an item of an omap sequence holds one pair.  Once the key and
    the value behind the mapping start are built and stored (the tag and
    the anchor of that mapping start are not looked at), the next event
    must be the mapping end: then the loop goes on with the next item;
    otherwise, as for a second pair in the item, the ValueError is
    "Expected mapping end event". *)
Theorem omap_item_holds_one_pair pn n r a es s e rest k s1 v s2 e2 rest2 :
  st_input s = Produce e :: rest ->
  type e = YAML_MAPPING_START_EVENT ->
  pn (set_input rest e s) = Ret (Some k) s1 ->
  pn s1 = Ret (Some v) s2 ->
  container_of (st_heap s2) r = Some (a, VOrderedDict es) ->
  hashable (st_heap s2) k = true ->
  st_input s2 = Produce e2 :: rest2 ->
  let s3 :=
    set_input rest2 e2
      (set_heap (<[a := VOrderedDict (dict_setitem (st_heap s2) es k v)]> (st_heap s2))
         s2) in
  parse_ordered_dict_loop pn (S n) r s
  = if bool_decide (type e2 = YAML_MAPPING_END_EVENT)
    then parse_ordered_dict_loop pn n r s3
    else Ret None (set_err (value_error "Expected mapping end event") s3).
Proof.
  intros Hin He Hk Hv Hr Hh Hin2 s3. cbn [parse_ordered_dict_loop].
  rewrite (bind_Ret _ _ _ _ _ (yaml_parser_parse_next _ _ _ Hin)). cbn [negb].
  unfold bind at 1, get at 1. proj_simpl. rewrite He.
  rewrite bool_decide_eq_false_2 by discriminate.
  rewrite (bool_decide_eq_true_2 _ (eq_refl YAML_MAPPING_START_EVENT)). cbn [negb].
  rewrite (bind_Ret _ _ _ _ _ Hk), (bind_Ret _ _ _ _ _ Hv).
  rewrite (bind_Ret _ _ s2 0
             (set_heap (<[a := VOrderedDict (dict_setitem (st_heap s2) es k v)]>
                          (st_heap s2)) s2)).
  2: { unfold PyObject_SetItem, bind at 1, get at 1. rewrite Hr, Hh. reflexivity. }
  cbn [Z.eqb negb]. unfold bind at 1, Py_DECREF at 1. unfold bind at 1, Py_DECREF at 1.
  rewrite (bind_Ret _ _ _ true s3).
  2: { apply yaml_parser_parse_next. exact Hin2. }
  cbn [negb]. unfold bind at 1, get at 1. subst s3. proj_simpl.
  case_bool_decide; reflexivity.
Qed.

Lemma omap_item_holds_one_pair_witness :
  let s := set_heap [VOrderedDict []]
             (initial_state [Produce (mapping_start_event None None);
                             Produce (literal_event (Some true));
                             Produce (literal_event None);
                             Produce (literal_event (Some false))]) in
  parse_ordered_dict_loop (parse_node wrapping_hook 1) 1 (Py_Ref 0) s
  = Ret None
      (set_err (value_error "Expected mapping end event")
         (set_input [] (literal_event (Some false))
            (set_heap [VOrderedDict [(Py_True, Py_None)]] s))).
Proof.
  intros s. etransitivity.
  - eapply (omap_item_holds_one_pair (parse_node wrapping_hook 1) 0 (Py_Ref 0) 0%nat [] s
              (mapping_start_event None None) _ Py_True _ Py_None _
              (literal_event (Some false)) []); reflexivity.
  - reflexivity.
Defined.

(** ** A tag collaborator that raises *)

Lemma tag_object_raises hook t i s err :
  c_str t <> "" ->
  hook (c_str t) i (st_heap s) = TagRaise err ->
  tag_object hook (Some t) (Some i) s
  = Ret None (log (OpTag (c_str t) i None) (set_err (Some err) s)).
Proof.
  intros Ht Hh. rewrite tag_object_calls by assumption.
  unfold PyObject_CallFunction_tag, bind at 1, get at 1. rewrite Hh. reflexivity.
Qed.

(** X20: when the tag collaborator raises for the tag of a sequence or
    of a mapping, the container goes on with a NULL result.  If nothing
    is in the container, NULL is returned at its end event with the
    exception of the collaborator as it was left.  But as soon as an item
    of the sequence, or a key and its value, has been built, storing it
    fails and [Py_DECREF] is applied to the NULL result: a NULL pointer
    is dereferenced. *)
Theorem raising_hook_on_container hook pn m s t err :
  tag (st_event s) = Some t ->
  c_str t <> "" ->
  c_str t <> omap_tag ->
  (forall i h, hook (c_str t) i h = TagRaise err) ->
  let opened fresh :=
    log (OpTag (c_str t) (constructed fresh s).1 None)
      (set_err (Some err) (constructed fresh s).2) in
  (forall sub s2,
     pn (opened (VList [])) = Ret (Some sub) s2 ->
     exists s3, parse_sequence hook pn (S m) s = Segfault s3) /\
  (forall s2,
     pn (opened (VList [])) = Ret None s2 ->
     type (st_event s2) = YAML_SEQUENCE_END_EVENT ->
     parse_sequence hook pn (S m) s = Ret None s2) /\
  (forall k s2 v s3,
     pn (opened (VDict [])) = Ret (Some k) s2 ->
     pn s2 = Ret (Some v) s3 ->
     exists s4, parse_mapping hook pn (S m) s = Segfault s4) /\
  (forall s2,
     pn (opened (VDict [])) = Ret None s2 ->
     type (st_event s2) = YAML_MAPPING_END_EVENT ->
     parse_mapping hook pn (S m) s = Ret None s2).
Proof.
  intros Ht Hte Hto Hraise opened.
  assert (parse_sequence hook pn (S m) s
          = parse_sequence_loop pn (S m) None (opened (VList []))) as Hseq.
  { unfold parse_sequence, bind at 1, get at 1. rewrite Ht, omap_test.
    rewrite (bool_decide_eq_false_2 _ Hto).
    rewrite (bind_Ret _ _ s (Some (constructed (VList []) s).1) (constructed (VList []) s).2)
      by reflexivity.
    rewrite (bind_Ret _ _ _ _ _ (tag_object_raises hook t _ _ err Hte (Hraise _ _))).
    rewrite (bind_Ret _ _ _ _ _ (memo_anchor_absent _ None _ (or_intror eq_refl))).
    reflexivity. }
  assert (parse_mapping hook pn (S m) s
          = parse_mapping_loop pn (S m) None (opened (VDict []))) as Hmap.
  { unfold parse_mapping, bind at 1, get at 1. rewrite Ht.
    rewrite (bind_Ret _ _ s (Some (constructed (VDict []) s).1) (constructed (VDict []) s).2)
      by reflexivity.
    rewrite (bind_Ret _ _ _ _ _ (tag_object_raises hook t _ _ err Hte (Hraise _ _))).
    rewrite (bind_Ret _ _ _ _ _ (memo_anchor_absent _ None _ (or_intror eq_refl))).
    reflexivity. }
  rewrite Hseq, Hmap. clear Hseq Hmap. split; [|split; [|split]].
  - intros sub s2 Hsub. cbn [parse_sequence_loop]. rewrite (bind_Ret _ _ _ _ _ Hsub).
    unfold PyObject_CallMethod_append, null_error, PyErr_Occurred, PyErr_SetString,
      bind, get, modify, ret, Py_DECREF.
    destruct (st_err s2); eexists; reflexivity.
  - intros s2 Hend He. cbn [parse_sequence_loop]. rewrite (bind_Ret _ _ _ _ _ Hend).
    unfold bind at 1, get at 1. rewrite (bool_decide_eq_true_2 _ He). reflexivity.
  - intros k s2 v s3 Hk Hv. cbn [parse_mapping_loop].
    rewrite (bind_Ret _ _ _ _ _ Hk), (bind_Ret _ _ _ _ _ Hv).
    unfold PyObject_SetItem, null_error, PyErr_Occurred, PyErr_SetString,
      bind, get, modify, ret, Py_DECREF.
    destruct (st_err s3); eexists; reflexivity.
  - intros s2 Hend He. cbn [parse_mapping_loop]. rewrite (bind_Ret _ _ _ _ _ Hend).
    unfold bind at 1, get at 1. rewrite (bool_decide_eq_true_2 _ He). reflexivity.
Qed.

Lemma raising_hook_on_container_witness :
  let s := set_input [plain_scalar "a"; Produce (plain_event YAML_SEQUENCE_END_EVENT)]
             (sequence_start_event None (Some "!t")) (initial_state []) in
  exists s3, parse_sequence raising_hook (parse_node raising_hook 1) 1 s = Segfault s3.
Proof.
  intros s.
  eapply (proj1 (raising_hook_on_container raising_hook (parse_node raising_hook 1) 0 s
                   "!t" {| exc := PyExc_ValueError; msg := "unknown tag" |}
                   eq_refl ltac:(discriminate) ltac:(discriminate)
                   (fun _ _ => eq_refl))).
  vm_compute. reflexivity.
Defined.

(** ** A document without a root *)

(** X21: a document must hold a node.  When the event behind the
    document start starts no node (as the document end does), nothing is
    built and [parse_yaml] returns NULL with the ValueError "Error
    parsing YAML", its message for a failure that raised nothing. *)
Theorem root_must_be_a_node hook e0 e1 e rest :
  type e0 = YAML_STREAM_START_EVENT ->
  type e1 = YAML_DOCUMENT_START_EVENT ->
  is_node_start (type e) = false ->
  exists s,
    parse_yaml hook (Produce e0 :: Produce e1 :: Produce e :: rest) = Ret None s /\
    st_heap s = [] /\ st_input s = rest /\
    st_err s = value_error "Error parsing YAML".
Proof.
  intros H0 H1 He. unfold parse_yaml, parse_yaml_from, parse_stream.
  set (s0 := initial_state _).
  assert (parse_document hook (S (length (Produce e0 :: Produce e1 :: Produce e :: rest)))
            (set_input (Produce e1 :: Produce e :: rest) e0 s0)
          = Ret None (set_input rest e (set_anchors ∅ s0))) as Hdoc.
  { unfold parse_document.
    pose proof (parse_node_no_node hook (length (Produce e0 :: Produce e1 :: Produce e :: rest))
                  (set_input (Produce e :: rest) e1 (set_anchors ∅ s0))) as Hn.
    cbn [st_input set_input] in Hn. specialize (Hn He).
    unfold bind at 1, modify at 1.
    erewrite bind_Ret by (apply yaml_parser_parse_next; reflexivity). cbn [negb].
    unfold bind at 1, get at 1. proj_simpl. rewrite (bool_decide_eq_true_2 _ H1).
    erewrite bind_Ret by exact Hn. reflexivity. }
  rewrite (bind_Ret _ _ s0 None (set_input rest e (set_anchors ∅ s0))).
  - eexists. split; [reflexivity|]. repeat split.
  - rewrite (bind_Ret _ _ _ _ _ (yaml_parser_parse_next s0 e0 _ eq_refl)). cbn [negb].
    unfold bind at 1, get at 1. proj_simpl. rewrite (bool_decide_eq_true_2 _ H0).
    rewrite (bind_Ret _ _ _ _ _ Hdoc). reflexivity.
Qed.

Lemma root_must_be_a_node_witness :
  exists s,
    parse_yaml wrapping_hook (one_document []) = Ret None s /\
    st_err s = value_error "Error parsing YAML".
Proof.
  destruct (root_must_be_a_node wrapping_hook
              (plain_event YAML_STREAM_START_EVENT)
              (plain_event YAML_DOCUMENT_START_EVENT)
              (plain_event YAML_DOCUMENT_END_EVENT)
              [Produce (plain_event YAML_STREAM_END_EVENT)])
    as (s & Hs & _ & _ & Herr); [reflexivity..|].
  exists s. split; [exact Hs|exact Herr].
Defined.
